(** * go-gob-http: the gob-safe error codec and the request/response snapshots

    A shallow embedding of [gob.go] (package gobhttp), of the sibling
    copy that carries [gobQuery.RequestResponse] (package dvr) and of
    [golang_13plus.go], together with the properties of the codec and of
    the snapshot model.

    Layout:
    - [Go]      : the part of the Go runtime the code looks at through
                  [reflect] (dynamic values, kinds, types, method sets);
    - [Gob]     : the registry of [encoding/gob] ([gob.Register]);
    - [Prog]    : a small monad of panics and calls into [encoding/gob];
    - the code of the repository, function by function;
    - the contract of the serializer and a reference serializer;
    - the theorems. *)

From Stdlib Require Import ZArith.
From Stdlib.Strings Require Import Ascii Byte.
From stdpp Require Import base option list strings countable gmap.

Local Open Scope string_scope.

(* ===================================================================== *)
(** ** The Go values an [error] can hold, as [reflect] sees them          *)
(* ===================================================================== *)

Module Go.

(** [reflect.Kind], restricted to the kinds that occur
    ([reflect.Invalid], [reflect.String], ...). *)
Inductive Kind := KInvalid | KString | KStruct | KPtr | KInterface.

(** Which receiver the type's [Error() string] method is declared on. *)
Inductive Receiver := NoErrorMethod | ValueReceiver | PointerReceiver.

(** A defined (or unnamed, when [Name] is empty) non-pointer type.
    [Str] is what [reflect.Type.String] prints, e.g. [http.ProtocolError]. *)
Record Named := mkNamed {
  PkgPath : string;
  Name : string;
  Str : string;
  ErrorRecv : Receiver
}.

Inductive GoType :=
| Defined (n : Named)
| PtrTo (t : GoType).

(** A Go value.  [VNil t] is the nil pointer of type [*t]; [VIface ity v]
    is a value of interface type [ity] holding [v], [VNilIface ity] the
    nil value of that interface type.

    The state of a concrete value is a string for a type whose
    underlying type is [string], and the fields of the struct, by name,
    for a struct type: [DStruct] when every field is plain, [DNested]
    when the struct also has fields of interface type (the [Err error]
    of [url.Error], the [Addr net.Addr] of [net.OpError]), each nil or
    holding a value. *)
Inductive Value :=
| VData (T : Named) (d : Data)
| VPtr (v : Value)
| VNil (t : GoType)
| VIface (ity : Named) (dyn : Value)
| VNilIface (ity : Named)
with Data :=
| DString (s : string)
| DStruct (fields : list (string * string))
| DNested (fields : list (string * string)) (ifaces : Ifaces)
with Ifaces :=
| INone
| IHolds (name : string) (held : Value) (rest : Ifaces)
| INil (name : string) (rest : Ifaces).

Scheme Value_mut := Induction for Value Sort Prop
  with Data_mut := Induction for Data Sort Prop
  with Ifaces_mut := Induction for Ifaces Sort Prop.
Combined Scheme Value_Data_Ifaces_ind from Value_mut, Data_mut, Ifaces_mut.

(** The interface type [error]: nil, or a dynamic value. *)
Definition error := option Value.

(** A [reflect.Value]; [None] is the zero Value, whose kind is [KInvalid]. *)
Definition rValue := option Value.

Global Instance Receiver_eq_dec : EqDecision Receiver.
Proof. solve_decision. Defined.
Global Instance Named_eq_dec : EqDecision Named.
Proof. solve_decision. Defined.
Global Instance GoType_eq_dec : EqDecision GoType.
Proof. solve_decision. Defined.
Fixpoint Value_eq_dec (x y : Value) {struct x} : Decision (x = y)
with Data_eq_dec (x y : Data) {struct x} : Decision (x = y)
with Ifaces_eq_dec (x y : Ifaces) {struct x} : Decision (x = y).
Proof.
  - destruct x as [T d|v|t|i v|i], y as [T' d'|v'|t'|i' v'|i'];
      try (right; discriminate).
    + destruct (decide (T = T')) as [->|]; [|right; congruence].
      destruct (Data_eq_dec d d') as [->|]; [left|right]; congruence.
    + destruct (Value_eq_dec v v') as [->|]; [left|right]; congruence.
    + destruct (decide (t = t')) as [->|]; [left|right]; congruence.
    + destruct (decide (i = i')) as [->|]; [|right; congruence].
      destruct (Value_eq_dec v v') as [->|]; [left|right]; congruence.
    + destruct (decide (i = i')) as [->|]; [left|right]; congruence.
  - destruct x as [s|fs|fs ifs], y as [s'|fs'|fs' ifs'];
      try (right; discriminate).
    + destruct (decide (s = s')) as [->|]; [left|right]; congruence.
    + destruct (decide (fs = fs')) as [->|]; [left|right]; congruence.
    + destruct (decide (fs = fs')) as [->|]; [|right; congruence].
      destruct (Ifaces_eq_dec ifs ifs') as [->|]; [left|right]; congruence.
  - destruct x as [|n v r|n r], y as [|n' v' r'|n' r'];
      try (right; discriminate).
    + left. reflexivity.
    + destruct (decide (n = n')) as [->|]; [|right; congruence].
      destruct (Value_eq_dec v v') as [->|]; [|right; congruence].
      destruct (Ifaces_eq_dec r r') as [->|]; [left|right]; congruence.
    + destruct (decide (n = n')) as [->|]; [|right; congruence].
      destruct (Ifaces_eq_dec r r') as [->|]; [left|right]; congruence.
Defined.
Global Existing Instances Value_eq_dec Data_eq_dec Ifaces_eq_dec.

Fixpoint typeOf (v : Value) : GoType :=
  match v with
  | VData T _ => Defined T
  | VPtr v' => PtrTo (typeOf v')
  | VNil t => PtrTo t
  | VIface ity _ | VNilIface ity => Defined ity
  end.

(** [reflect.ValueOf(err)]: the dynamic value of the interface. *)
Definition ValueOf (err : error) : rValue := err.

(** [reflect.Value.Kind]. *)
Definition kindOf (value : rValue) : Kind :=
  match value with
  | None => KInvalid
  | Some (VData _ (DString _)) => KString
  | Some (VData _ (DStruct _)) | Some (VData _ (DNested _ _)) => KStruct
  | Some (VPtr _) | Some (VNil _) => KPtr
  | Some (VIface _ _) | Some (VNilIface _) => KInterface
  end.

(** [reflect.Value.Elem] on a pointer or an interface: the zero Value
    when the pointer or the interface is nil. *)
Definition Elem (value : rValue) : rValue :=
  match value with
  | Some (VPtr v') => Some v'
  | Some (VIface _ dyn) => Some dyn
  | _ => None
  end.

(** [reflect.Type.PkgPath] and [reflect.Type.Name]: empty for a pointer
    type, which is not a defined type. *)
Definition typePkgPath (t : GoType) : string :=
  match t with Defined n => PkgPath n | PtrTo _ => "" end.
Definition typeName (t : GoType) : string :=
  match t with Defined n => Name n | PtrTo _ => "" end.

(** [reflect.Type.String]. *)
Fixpoint typeString (t : GoType) : string :=
  match t with
  | Defined n => Str n
  | PtrTo t' => "*" +:+ typeString t'
  end.

Definition isPointer (t : GoType) : bool :=
  match t with PtrTo _ => true | Defined _ => false end.

(** Method sets: [T] has the methods declared on [T]; [*T] has those
    declared on [T] or on [*T]; [**T] has none. *)
Definition implementsError (t : GoType) : bool :=
  match t with
  | Defined n => bool_decide (ErrorRecv n = ValueReceiver)
  | PtrTo (Defined n) => bool_decide (ErrorRecv n ≠ NoErrorMethod)
  | PtrTo (PtrTo _) => false
  end.

(** [value.Interface().(error)]: [Interface()] of a value of interface
    kind hands back what the interface holds. *)
Definition asInterface (v : Value) : option Value :=
  match v with
  | VIface _ dyn => Some dyn
  | VNilIface _ => None
  | _ => Some v
  end.

Definition assertError (x : option Value) : bool :=
  match x with
  | None => false
  | Some v => implementsError (typeOf v)
  end.

(** What a panic carries. *)
Inductive PanicValue :=
| ReflectValueError (method : string) (k : Kind)
| NilDereference
| GobPanic (msg : string)
| DvrFailure (err : Value).

End Go.

Import Go.

(** How a call ends: it returns, or it panics. *)
Inductive Outcome (A : Type) : Type :=
| Returned (a : A)
| Panicked (p : PanicValue).
Arguments Returned {A} a.
Arguments Panicked {A} p.

(* ===================================================================== *)
(** ** The registry of [encoding/gob]                                     *)
(* ===================================================================== *)

Module Gob.

Definition Receiver_to_nat (r : Receiver) : nat :=
  match r with NoErrorMethod => 0 | ValueReceiver => 1 | PointerReceiver => 2 end.
Definition Receiver_of_nat (n : nat) : Receiver :=
  match n with 0 => NoErrorMethod | 1 => ValueReceiver | _ => PointerReceiver end.

Global Program Instance Receiver_countable : Countable Receiver :=
  inj_countable' Receiver_to_nat Receiver_of_nat _.
Next Obligation. by intros []. Qed.

Global Program Instance Named_countable : Countable Named :=
  inj_countable'
    (λ n, (PkgPath n, Name n, Str n, ErrorRecv n))
    (λ '(p, n, s, r), mkNamed p n s r) _.
Next Obligation. by intros []. Qed.

Fixpoint ptrDepth (t : GoType) : nat :=
  match t with Defined _ => 0 | PtrTo t' => S (ptrDepth t') end.
Fixpoint baseNamed (t : GoType) : Named :=
  match t with Defined n => n | PtrTo t' => baseNamed t' end.
Fixpoint pointerTo (depth : nat) (n : Named) : GoType :=
  match depth with 0 => Defined n | S d => PtrTo (pointerTo d n) end.

Global Program Instance GoType_countable : Countable GoType :=
  inj_countable'
    (λ t, (ptrDepth t, baseNamed t))
    (λ '(d, n), pointerTo d n) _.
Next Obligation. intros t. induction t; simpl; congruence. Qed.

(** [nameToConcreteType] and [concreteTypeToName] of package gob. *)
Record Registry := mkRegistry {
  nameToConcreteType : gmap string GoType;
  concreteTypeToName : gmap GoType string
}.

Definition empty : Registry := mkRegistry ∅ ∅.

(** [userType(rt).base]: the type with every pointer stripped. *)
Definition userBase (t : GoType) : GoType := Defined (baseNamed t).

(** The name [gob.Register] picks.  For a pointer type the library keeps
    [rt = pt], so the name stays [rt.String()], e.g. [*http.ProtocolError];
    a defined type is named by its import path. *)
Definition registeredName (rt : GoType) : string :=
  let name := typeString rt in
  let star := if bool_decide (typeName rt = "") && isPointer rt then "*" else "" in
  if bool_decide (typeName rt ≠ "") then
    if bool_decide (typePkgPath rt = "") then star +:+ typeName rt
    else star +:+ typePkgPath rt +:+ "." +:+ typeName rt
  else name.

(** [gob.RegisterName(name, value)]. *)
Definition RegisterName (name : string) (value : Value) (reg : Registry)
  : Outcome Registry :=
  if bool_decide (name = "") then Panicked (GobPanic "attempt to register empty name")
  else
    let user := typeOf value in
    let base := userBase user in
    let stored :=
      match nameToConcreteType reg !! name with
      | Some t => (t, true, nameToConcreteType reg)
      | None => (user, false, <[name := user]> (nameToConcreteType reg))
      end in
    let '(t, dup, n2t) := stored in
    if dup && bool_decide (t ≠ user)
    then Panicked (GobPanic "gob: registering duplicate types for name")
    else
      match concreteTypeToName reg !! base with
      | Some n =>
          if bool_decide (n ≠ name)
          then Panicked (GobPanic "gob: registering duplicate names for type")
          else Returned (mkRegistry n2t (concreteTypeToName reg))
      | None =>
          Returned (mkRegistry n2t (<[base := name]> (concreteTypeToName reg)))
      end.

(** [gob.Register(value)]. *)
Definition Register (value : Value) (reg : Registry) : Outcome Registry :=
  RegisterName (registeredName (typeOf value)) value reg.

(** What the encoder sends for an interface value: the value reached
    through its pointers ([ut.indir] dereferences), nothing for a nil
    pointer. *)
Fixpoint indir (v : Value) : option Value :=
  match v with
  | VPtr v' => indir v'
  | VNil _ => None
  | _ => Some v
  end.

(** What the decoder allocates for a received value: a value of the
    type registered under the name it read ([allocValue(typ)]). *)
Fixpoint alloc (typ : GoType) (leaf : Value) : Value :=
  match typ with
  | PtrTo t => VPtr (alloc t leaf)
  | Defined _ => leaf
  end.

(** A value counts as registered once its name leads to its type and
    its base type leads to that name: what [RegisterName] leaves behind
    when it returns. *)
Definition Registered (reg : Registry) (value : Value) : Prop :=
  nameToConcreteType reg !! registeredName (typeOf value) = Some (typeOf value)
  ∧ concreteTypeToName reg !! userBase (typeOf value)
    = Some (registeredName (typeOf value))
  ∧ registeredName (typeOf value) ≠ "".

(** The type under which a value travels: the one registered under the
    name of its base type. *)
Definition wireType (reg : Registry) (v : Value) : option GoType :=
  name ← concreteTypeToName reg !! userBase (typeOf v);
  nameToConcreteType reg !! name.

(** gob sends the exported fields of a struct only: those whose name
    starts with an upper-case letter. *)
Definition isExported (name : string) : bool :=
  match name with
  | String c _ =>
      let n := nat_of_ascii c in ((65 <=? n) && (n <=? 90))%nat
  | EmptyString => false
  end.

(** The plain fields as they come back: an exported field with its
    value, another one with the zero value the decoder allocated. *)
Definition carriedFields (fields : list (string * string))
  : list (string * string) :=
  (λ f, (f.1, if isExported f.1 then f.2 else "")) <$> fields.

Definition anyExported (names : list string) : bool :=
  existsb isExported names.

Fixpoint ifaceNames (ifaces : Ifaces) : list string :=
  match ifaces with
  | INone => []
  | IHolds n _ rest | INil n rest => n :: ifaceNames rest
  end.

(** What gob delivers for a value sent inside an interface, [None] when
    the encoder reports an error.  The value is sent under the name
    registered for its base type and comes back allocated at the type
    registered under that name; a nil pointer is refused, and so is a
    type that is not registered or a struct without exported fields.
    The same holds, field by field, for what the exported interface
    fields of a struct hold; a nil interface field stays nil.  (Types
    that marshal themselves, through [GobEncoder] and the like, are not
    among the values modelled.) *)
Fixpoint carried (reg : Registry) (v : Value) : option Value :=
  match v with
  | VData T d =>
      match wireType reg (VData T d) with
      | Some typ =>
          if decide (userBase typ = Defined T)
          then d' ← carriedData reg d; Some (alloc typ (VData T d'))
          else None
      | None => None
      end
  | VPtr v' => carried reg v'
  | VNil _ | VIface _ _ | VNilIface _ => None
  end
with carriedData (reg : Registry) (d : Data) : option Data :=
  match d with
  | DString s => Some (DString s)
  | DStruct fields =>
      if anyExported fields.*1 then Some (DStruct (carriedFields fields))
      else None
  | DNested fields ifaces =>
      if anyExported (fields.*1 ++ ifaceNames ifaces)
      then DNested (carriedFields fields) <$> carriedIfaces reg ifaces
      else None
  end
with carriedIfaces (reg : Registry) (ifaces : Ifaces) : option Ifaces :=
  match ifaces with
  | INone => Some INone
  | IHolds n v rest =>
      if isExported n
      then v' ← carried reg v; IHolds n v' <$> carriedIfaces reg rest
      else INil n <$> carriedIfaces reg rest
  | INil n rest => INil n <$> carriedIfaces reg rest
  end.

End Gob.

(* ===================================================================== *)
(** ** The types of the codec                                             *)
(* ===================================================================== *)

(** [type gobError struct { Error error }] *)
Module gobError.
Record t := mk { Error : error }.
End gobError.

(** [type gobRawError struct { Error error; ErrorsErrorString bool }] *)
Module gobRawError.
Record t := mk { Error : error; ErrorsErrorString : bool }.
End gobRawError.

(* ===================================================================== *)
(** ** Programs: panics and calls into encoding/gob                       *)
(* ===================================================================== *)

(** A program returns, panics, or calls the gob library and goes on with
    what the library hands back: [gob.Register(value)],
    [gob.NewEncoder(&buffer).Encode(&rawError)] (the bytes left in the
    buffer and the error) and [gob.NewDecoder(buffer).Decode(&rawError)]
    (the envelope as the decoder left it and the error). *)
Inductive Prog (A : Type) : Type :=
| Ret (a : A)
| Panic (p : PanicValue)
| CallRegister (value : Value) (k : Prog A)
| CallEncode (rawError : gobRawError.t) (k : list byte → error → Prog A)
| CallDecode (data : list byte) (k : gobRawError.t → error → Prog A).
Arguments Ret {A} a.
Arguments Panic {A} p.
Arguments CallRegister {A} value k.
Arguments CallEncode {A} rawError k.
Arguments CallDecode {A} data k.

Fixpoint bind {A B : Type} (p : Prog A) (f : A → Prog B) : Prog B :=
  match p with
  | Ret a => f a
  | Panic x => Panic x
  | CallRegister v k => CallRegister v (bind k f)
  | CallEncode raw k => CallEncode raw (λ b e, bind (k b e) f)
  | CallDecode data k => CallDecode data (λ r e, bind (k r e) f)
  end.

Notation "x <~ p ;; q" := (bind p (λ x, q))
  (at level 100, p at next level, q at level 200, right associativity,
   only parsing).

(** The serializer behind the calls. *)
Record Serializer := mkSerializer {
  Encode : Gob.Registry → gobRawError.t → list byte * error;
  Decode : Gob.Registry → list byte → gobRawError.t * error
}.

(** Running a program against a serializer and the registry. *)
Fixpoint run {A : Type} (G : Serializer) (p : Prog A) (reg : Gob.Registry)
  : Outcome (A * Gob.Registry) :=
  match p with
  | Ret a => Returned (a, reg)
  | Panic x => Panicked x
  | CallRegister v k =>
      match Gob.Register v reg with
      | Returned reg' => run G k reg'
      | Panicked x => Panicked x
      end
  | CallEncode raw k =>
      let '(bytes, err) := Encode G reg raw in run G (k bytes err) reg
  | CallDecode data k =>
      let '(raw, err) := Decode G reg data in run G (k raw err) reg
  end.

(* ===================================================================== *)
(** ** gob.go: the error wrapper                                          *)
(* ===================================================================== *)

(** [type gobSafeError string], package gobhttp. *)
Definition gobSafeErrorT : Named :=
  mkNamed "github.com/MiCHiLU/go-gob-http" "gobSafeError"
          "gobhttp.gobSafeError" ValueReceiver.

(** The conversion [gobSafeError(s)]. *)
Definition gobSafeError (s : string) : Value := VData gobSafeErrorT (DString s).

(** [func (g gobSafeError) Error() string { return string(g) }] *)
Definition gobSafeError_Error (g : string) : string := g.

(** The standard library's [errors.errorString] and [errors.New]. *)
Definition errorStringT : Named :=
  mkNamed "errors" "errorString" "errors.errorString" PointerReceiver.
Definition errors_New (text : string) : Value :=
  VPtr (VData errorStringT (DStruct [("s", text)])).
Definition errorString_Error (fields : list (string * string)) : string :=
  match fields with
  | (_, s) :: _ => s
  | [] => ""
  end.

(** The error types [init] registers, and the three other types it hands
    to [gob.Register]. *)
Definition http_ProtocolError : Named :=
  mkNamed "net/http" "ProtocolError" "http.ProtocolError" PointerReceiver.
Definition net_AddrError : Named :=
  mkNamed "net" "AddrError" "net.AddrError" PointerReceiver.
Definition net_DNSConfigError : Named :=
  mkNamed "net" "DNSConfigError" "net.DNSConfigError" PointerReceiver.
Definition net_DNSError : Named :=
  mkNamed "net" "DNSError" "net.DNSError" PointerReceiver.
Definition net_InvalidAddrError : Named :=
  mkNamed "net" "InvalidAddrError" "net.InvalidAddrError" ValueReceiver.
Definition net_OpError : Named :=
  mkNamed "net" "OpError" "net.OpError" PointerReceiver.
Definition net_ParseError : Named :=
  mkNamed "net" "ParseError" "net.ParseError" PointerReceiver.
Definition net_UnknownNetworkError : Named :=
  mkNamed "net" "UnknownNetworkError" "net.UnknownNetworkError" ValueReceiver.
Definition url_Error : Named :=
  mkNamed "net/url" "Error" "url.Error" PointerReceiver.
Definition url_EscapeError : Named :=
  mkNamed "net/url" "EscapeError" "url.EscapeError" ValueReceiver.
Definition rsa_PublicKey : Named :=
  mkNamed "crypto/rsa" "PublicKey" "rsa.PublicKey" NoErrorMethod.
Definition rsa_PrivateKey : Named :=
  mkNamed "crypto/rsa" "PrivateKey" "rsa.PrivateKey" NoErrorMethod.
Definition net_TCPAddr : Named :=
  mkNamed "net" "TCPAddr" "net.TCPAddr" NoErrorMethod.

(** [new(T)]: a pointer to the zero value of [T]. *)
Definition new_string (T : Named) : Value := VPtr (VData T (DString "")).
Definition new_struct (T : Named) : Value := VPtr (VData T (DStruct [])).

(** The walk of [registerErrorType] and of [GobEncode]:
    [for value.Kind() == reflect.Interface || value.Kind() == reflect.Ptr
       { value = value.Elem() }],
    by recursion on the value; a nil pointer or a nil interface has the
    zero Value as its [Elem], on which the loop stops. *)
Fixpoint indirect (v : Value) : rValue :=
  match v with
  | VPtr v' => indirect v'
  | VIface _ v' => indirect v'
  | VNil _ | VNilIface _ => None
  | VData _ _ => Some v
  end.

Definition indirectOf (value : rValue) : rValue :=
  match value with
  | Some v => indirect v
  | None => None
  end.

(** [reflect.Value.Type]: panics on the zero Value. *)
Definition reflect_Type (value : rValue) : Prog GoType :=
  match value with
  | Some v => Ret (typeOf v)
  | None => Panic (ReflectValueError "reflect.Value.Type" KInvalid)
  end.

(** [fmt.Sprintf("%s.%s", typ.PkgPath(), typ.Name())] *)
Definition typeId (typ : GoType) : string :=
  typePkgPath typ +:+ "." +:+ typeName typ.

(** The body of the loop of [registerErrorType]:
    [if _, ok := value.Interface().(error); ok { gob.Register(value.Interface()) }] *)
Definition registerIfError (v : Value) : Prog unit :=
  match asInterface v with
  | Some x =>
      if implementsError (typeOf x) then CallRegister x (Ret tt) else Ret tt
  | None => Ret tt
  end.

Fixpoint registerWalk (v : Value) : Prog rValue :=
  match v with
  | VPtr v' => _ <~ registerIfError v ;; registerWalk v'
  | VIface _ v' => _ <~ registerIfError v ;; registerWalk v'
  | VNil _ | VNilIface _ => _ <~ registerIfError v ;; Ret None
  | VData _ _ => Ret (Some v)
  end.

(** [func registerErrorType(err error)]; [encodableTypes] goes in and
    comes out. *)
Definition registerErrorType (encodableTypes : gmap string bool) (err : error)
  : Prog (gmap string bool) :=
  value <~ match ValueOf err with
           | Some v => registerWalk v
           | None => Ret None
           end ;;
  typ <~ reflect_Type value ;;
  let id := typeId typ in
  Ret (<[id := true]> encodableTypes).

(** [func init()], from [var encodableTypes = map[string]bool{}]. *)
Definition init : Prog (gmap string bool) :=
  let encodableTypes : gmap string bool := ∅ in
  encodableTypes <~ registerErrorType encodableTypes (Some (new_string gobSafeErrorT)) ;;
  encodableTypes <~ registerErrorType encodableTypes (Some (new_struct http_ProtocolError)) ;;
  encodableTypes <~ registerErrorType encodableTypes (Some (new_struct net_AddrError)) ;;
  encodableTypes <~ registerErrorType encodableTypes (Some (new_struct net_DNSConfigError)) ;;
  encodableTypes <~ registerErrorType encodableTypes (Some (new_struct net_DNSError)) ;;
  encodableTypes <~ registerErrorType encodableTypes (Some (new_struct net_DNSError)) ;;
  encodableTypes <~ registerErrorType encodableTypes (Some (new_string net_InvalidAddrError)) ;;
  encodableTypes <~ registerErrorType encodableTypes (Some (new_struct net_OpError)) ;;
  encodableTypes <~ registerErrorType encodableTypes (Some (new_struct net_ParseError)) ;;
  encodableTypes <~ registerErrorType encodableTypes (Some (new_string net_UnknownNetworkError)) ;;
  encodableTypes <~ registerErrorType encodableTypes (Some (new_struct url_Error)) ;;
  encodableTypes <~ registerErrorType encodableTypes (Some (new_string url_EscapeError)) ;;
  CallRegister (new_struct rsa_PublicKey)
    (CallRegister (new_struct rsa_PrivateKey)
       (CallRegister (new_struct net_TCPAddr)
          (Ret encodableTypes))).

Section Codec.

(** The [Error] methods of the types declared outside this package and
    outside [errors]: whatever the program links in. *)
Variable foreign : Named → Data → string.

(** Method dispatch for [Error()] on a concrete value. *)
Definition Error_method (T : Named) (d : Data) : string :=
  match d with
  | DString g =>
      if decide (T = gobSafeErrorT) then gobSafeError_Error g else foreign T d
  | DStruct fields =>
      if decide (T = errorStringT) then errorString_Error fields else foreign T d
  | DNested _ _ => foreign T d
  end.

(** The call [e.Error()] on the dynamic value of an [error]: the method
    runs on the value the pointers lead to; through a nil pointer or a
    nil interface the call faults. *)
Fixpoint callError (v : Value) : Prog string :=
  match v with
  | VData T d => Ret (Error_method T d)
  | VPtr v' => callError v'
  | VIface _ v' => callError v'
  | VNil _ | VNilIface _ => Panic NilDereference
  end.

(** [func (g *gobError) GobEncode() ([]byte, error)] *)
Definition GobEncode (encodableTypes : gmap string bool) (g : gobError.t)
  : Prog (list byte * error) :=
  match gobError.Error g with
  | None => Ret ([], None)
  | Some e =>
      let value := indirectOf (ValueOf (Some e)) in
      t1 <~ reflect_Type value ;;
      t2 <~ reflect_Type value ;;
      let id := typePkgPath t1 +:+ "." +:+ typeName t2 in
      let rawError :=
        gobRawError.mk (Some e) (bool_decide (id = "errors.errorString")) in
      rawError <~ match encodableTypes !! id with
                  | Some _ => Ret rawError
                  | None =>
                      msg <~ callError e ;;
                      Ret (gobRawError.mk (Some (gobSafeError msg))
                             (gobRawError.ErrorsErrorString rawError))
                  end ;;
      CallEncode rawError (λ bytes err, Ret (bytes, err))
  end.

(** [func (g *gobError) GobDecode(data []byte) error]; the receiver
    goes in and comes out next to the returned error. *)
Definition GobDecode (g : gobError.t) (data : list byte)
  : Prog (gobError.t * error) :=
  if bool_decide (length data = 0) then Ret (gobError.mk None, None)
  else
    CallDecode data (λ rawError err,
      match err with
      | Some _ => Ret (g, err)
      | None =>
          if gobRawError.ErrorsErrorString rawError then
            match gobRawError.Error rawError with
            | Some payload =>
                msg <~ callError payload ;;
                Ret (gobError.mk (Some (errors_New msg)), None)
            | None => Panic NilDereference
            end
          else Ret (gobError.mk (gobRawError.Error rawError), None)
      end).

End Codec.

(* ===================================================================== *)
(** ** The state [init] leaves behind                                     *)
(* ===================================================================== *)

(** A serializer that is never called: [init] only registers. *)
Definition nullSerializer : Serializer :=
  mkSerializer (λ _ _, ([], None)) (λ _ _, (gobRawError.mk None false, None)).

(** What running [init] from the empty registry comes to. *)
Definition initOutcome : Outcome (gmap string bool * Gob.Registry) :=
  run nullSerializer init Gob.empty.

Definition afterInit : gmap string bool * Gob.Registry :=
  match initOutcome with
  | Returned st => st
  | Panicked _ => (∅, Gob.empty)
  end.

Definition isReturned {A : Type} (o : Outcome A) : bool :=
  match o with Returned _ => true | Panicked _ => false end.

(** A program that calls the library only to register. *)
Fixpoint registersOnly {A : Type} (p : Prog A) : bool :=
  match p with
  | Ret _ | Panic _ => true
  | CallRegister _ k => registersOnly k
  | CallEncode _ _ | CallDecode _ _ => false
  end.

(** [encodableTypes] and gob's registry once [init] has run. *)
Definition encodableTypes0 : gmap string bool := afterInit.1.
Definition registry0 : Gob.Registry := afterInit.2.

(** The error types [init] passes to [registerErrorType]. *)
Definition registeredErrorTypes : list Named :=
  [ gobSafeErrorT; http_ProtocolError; net_AddrError; net_DNSConfigError;
    net_DNSError; net_InvalidAddrError; net_OpError; net_ParseError;
    net_UnknownNetworkError; url_Error; url_EscapeError ].

(** What registration gives a type [T]: its identifier is in
    [encodableTypes], gob sends a [T] under the name of [*T], and the
    identifier is not that of [errors.errorString]. *)
Definition registeredCheck (T : Named) : bool :=
  bool_decide (encodableTypes0 !! typeId (Defined T) = Some true)
  && bool_decide (Gob.wireType registry0 (VData T (DString ""))
                  = Some (PtrTo (Defined T)))
  && bool_decide (typeId (Defined T) ≠ "errors.errorString").

(* ===================================================================== *)
(** ** The contract of the serializer                                     *)
(* ===================================================================== *)

(** What the codec relies on from [encoding/gob]: an envelope whose
    payload gob carries is written without error as a non-empty byte
    sequence, and reading these bytes back gives the envelope with the
    payload as gob delivers it. *)
Definition transmits (G : Serializer) : Prop :=
  ∀ (reg : Gob.Registry) (raw : gobRawError.t) (v v' : Value),
    gobRawError.Error raw = Some v →
    Gob.carried reg v = Some v' →
    ∃ data : list byte,
      Encode G reg raw = (data, None)
      ∧ data ≠ []
      ∧ Decode G reg data
        = (gobRawError.mk (Some v') (gobRawError.ErrorsErrorString raw), None).

(** The other half: for an envelope whose payload gob does not carry,
    the encoder reports an error. *)
Definition refuses (G : Serializer) : Prop :=
  ∀ (reg : Gob.Registry) (raw : gobRawError.t) (v : Value),
    gobRawError.Error raw = Some v →
    Gob.carried reg v = None →
    ∃ (data : list byte) (err : Value), Encode G reg raw = (data, Some err).

(* ===================================================================== *)
(** ** A reference serializer                                             *)
(* ===================================================================== *)

(** A serializer with the behaviour of gob on envelopes, over a wire
    format of its own: one header byte, then the envelope (the
    registered name of the payload's type, its state, the flag) numbered
    by [encode] and written bit by bit. *)
Module RefGob.

(** The values written as trees, to number them. *)
Definition Leaf : Type := string + (Named + GoType).

Definition fieldTree (f : string * string) : gen_tree Leaf :=
  GenNode 9 [GenLeaf (inl f.1); GenLeaf (inl f.2)].

Definition fieldOfTree (t : gen_tree Leaf) : option (string * string) :=
  match t with
  | GenNode 9 [GenLeaf (inl n); GenLeaf (inl s)] => Some (n, s)
  | _ => None
  end.

Fixpoint valueTree (v : Value) : gen_tree Leaf :=
  match v with
  | VData T d => GenNode 0 [GenLeaf (inr (inl T)); dataTree d]
  | VPtr v' => GenNode 1 [valueTree v']
  | VNil t => GenNode 2 [GenLeaf (inr (inr t))]
  | VIface ity v' => GenNode 3 [GenLeaf (inr (inl ity)); valueTree v']
  | VNilIface ity => GenNode 4 [GenLeaf (inr (inl ity))]
  end
with dataTree (d : Data) : gen_tree Leaf :=
  match d with
  | DString s => GenNode 5 [GenLeaf (inl s)]
  | DStruct fields => GenNode 6 (fieldTree <$> fields)
  | DNested fields ifaces =>
      GenNode 7 [GenNode 6 (fieldTree <$> fields); ifacesTree ifaces]
  end
with ifacesTree (ifaces : Ifaces) : gen_tree Leaf :=
  match ifaces with
  | INone => GenNode 10 []
  | IHolds n v rest =>
      GenNode 11 [GenLeaf (inl n); valueTree v; ifacesTree rest]
  | INil n rest => GenNode 12 [GenLeaf (inl n); ifacesTree rest]
  end.

Fixpoint valueOfTree (t : gen_tree Leaf) : option Value :=
  match t with
  | GenNode 0 [GenLeaf (inr (inl T)); d] => VData T <$> dataOfTree d
  | GenNode 1 [v] => VPtr <$> valueOfTree v
  | GenNode 2 [GenLeaf (inr (inr ty))] => Some (VNil ty)
  | GenNode 3 [GenLeaf (inr (inl ity)); v] => VIface ity <$> valueOfTree v
  | GenNode 4 [GenLeaf (inr (inl ity))] => Some (VNilIface ity)
  | _ => None
  end
with dataOfTree (t : gen_tree Leaf) : option Data :=
  match t with
  | GenNode 5 [GenLeaf (inl s)] => Some (DString s)
  | GenNode 6 fields => DStruct <$> mapM fieldOfTree fields
  | GenNode 7 [GenNode 6 fields; ifaces] =>
      fs ← mapM fieldOfTree fields;
      DNested fs <$> ifacesOfTree ifaces
  | _ => None
  end
with ifacesOfTree (t : gen_tree Leaf) : option Ifaces :=
  match t with
  | GenNode 10 [] => Some INone
  | GenNode 11 [GenLeaf (inl n); v; rest] =>
      v' ← valueOfTree v; IHolds n v' <$> ifacesOfTree rest
  | GenNode 12 [GenLeaf (inl n); rest] => INil n <$> ifacesOfTree rest
  | _ => None
  end.

Definition Wire : Type := option (string * Data) * bool.

Definition wireTree (w : Wire) : option (string * gen_tree Leaf) * bool :=
  ((λ p, (p.1, dataTree p.2)) <$> w.1, w.2).

Definition wireOfTree (w : option (string * gen_tree Leaf) * bool)
  : option Wire :=
  match w.1 with
  | None => Some (None, w.2)
  | Some (name, t) => (λ d, (Some (name, d), w.2)) <$> dataOfTree t
  end.

Definition header : byte := x47.

Fixpoint bits (p : positive) : list byte :=
  match p with
  | xH => []
  | xO p' => x00 :: bits p'
  | xI p' => x01 :: bits p'
  end.

Fixpoint unbits (l : list byte) : option positive :=
  match l with
  | [] => Some xH
  | x00 :: l' => xO <$> unbits l'
  | x01 :: l' => xI <$> unbits l'
  | _ => None
  end.

Definition write (w : Wire) : list byte := header :: bits (encode (wireTree w)).

Definition read (data : list byte) : option Wire :=
  match data with
  | x47 :: rest =>
      p ← unbits rest;
      t ← (decode p : option (option (string * gen_tree Leaf) * bool));
      wireOfTree t
  | _ => None
  end.

Definition zero : gobRawError.t := gobRawError.mk None false.

Definition refEncode (reg : Gob.Registry) (raw : gobRawError.t)
  : list byte * error :=
  match gobRawError.Error raw with
  | None => (write (None, gobRawError.ErrorsErrorString raw), None)
  | Some v =>
      match Gob.indir v with
      | Some leaf =>
          match Gob.concreteTypeToName reg !! Gob.userBase (typeOf v),
                leaf, Gob.carried reg v with
          | Some name, VData _ d, Some _ =>
              (write (Some (name, d), gobRawError.ErrorsErrorString raw), None)
          | None, _, _ =>
              ([], Some (errors_New "gob: type not registered for interface"))
          | _, _, _ =>
              ([], Some (errors_New "gob: cannot encode the value"))
          end
      | None =>
          ([], Some (errors_New "gob: cannot encode nil pointer inside interface"))
      end
  end.

Definition refDecode (reg : Gob.Registry) (data : list byte)
  : gobRawError.t * error :=
  match read data with
  | Some (None, flag) => (gobRawError.mk None flag, None)
  | Some (Some (name, d), flag) =>
      match Gob.nameToConcreteType reg !! name with
      | Some typ =>
          match Gob.carriedData reg d with
          | Some d' =>
              (gobRawError.mk
                 (Some (Gob.alloc typ (VData (Gob.baseNamed typ) d'))) flag,
               None)
          | None => (zero, Some (errors_New "gob: cannot decode the value"))
          end
      | None => (zero, Some (errors_New "gob: name not registered for interface"))
      end
  | None => (zero, Some (errors_New "gob: malformed input"))
  end.

Definition serializer : Serializer := mkSerializer refEncode refDecode.

End RefGob.

(* ===================================================================== *)
(** ** The live values of net/http, net/url and crypto/tls                *)
(* ===================================================================== *)

Module url.
(** [url.URL], by the fields that make up its string form. *)
Record URL := mkURL {
  Scheme : string;
  Opaque : string;
  Host : string;
  Path : string;
  RawQuery : string;
  Fragment : string
}.
(** [url.Values], a [map[string][]string]. *)
Definition Values : Type := gmap string (list string).
End url.

Module tls.
Record ConnectionState := mkConnectionState {
  Version : Z;
  HandshakeComplete : bool;
  CipherSuite : Z;
  ServerName : string
}.
End tls.

Module http.

(** [http.Header], a [map[string][]string]. *)
Definition Header : Type := gmap string (list string).

(** An [io.ReadCloser] body, by what reading it to the end gives. *)
Record ReadCloser := mkReadCloser {
  content : list byte;
  readError : error
}.

Module Request.
Record t := mk {
  Method : string;
  URL : option url.URL;
  Proto : string;
  ProtoMajor : Z;
  ProtoMinor : Z;
  Header : http.Header;
  Body : option ReadCloser;
  ContentLength : Z;
  TransferEncoding : list string;
  Close : bool;
  Host : string;
  Form : url.Values;
  PostForm : url.Values;
  Trailer : http.Header;
  RemoteAddr : string;
  RequestURI : string;
  TLS : option tls.ConnectionState
}.

(** The assignment [req.TLS = x]. *)
Definition set_TLS (x : option tls.ConnectionState) (r : t) : t :=
  mk (Method r) (URL r) (Proto r) (ProtoMajor r) (ProtoMinor r) (Header r)
     (Body r) (ContentLength r) (TransferEncoding r) (Close r) (Host r)
     (Form r) (PostForm r) (Trailer r) (RemoteAddr r) (RequestURI r) x.
End Request.

Module Response.
Record t := mk {
  Status : string;
  StatusCode : Z;
  Proto : string;
  ProtoMajor : Z;
  ProtoMinor : Z;
  Header : http.Header;
  Body : option ReadCloser;
  ContentLength : Z;
  TransferEncoding : list string;
  Close : bool;
  Trailer : http.Header;
  TLS : option tls.ConnectionState
}.

(** The assignment [resp.TLS = x]. *)
Definition set_TLS (x : option tls.ConnectionState) (r : t) : t :=
  mk (Status r) (StatusCode r) (Proto r) (ProtoMajor r) (ProtoMinor r)
     (Header r) (Body r) (ContentLength r) (TransferEncoding r) (Close r)
     (Trailer r) x.
End Response.

End http.

(* ===================================================================== *)
(** ** The snapshots                                                      *)
(* ===================================================================== *)

(** [type gobRequest struct] ([GobRequest] in gob.go). *)
Module gobRequest.
Record t := mk {
  Method : string;
  URL : string;
  Proto : string;
  ProtoMajor : Z;
  ProtoMinor : Z;
  Header : http.Header;
  ContentLength : Z;
  TransferEncoding : list string;
  Close : bool;
  Host : string;
  Form : url.Values;
  PostForm : url.Values;
  Trailer : http.Header;
  RemoteAddr : string;
  RequestURI : string;
  TLS : option tls.ConnectionState;
  Body : list byte;
  Error : gobError.t
}.

Definition set_TLS (x : option tls.ConnectionState) (r : t) : t :=
  mk (Method r) (URL r) (Proto r) (ProtoMajor r) (ProtoMinor r) (Header r)
     (ContentLength r) (TransferEncoding r) (Close r) (Host r) (Form r)
     (PostForm r) (Trailer r) (RemoteAddr r) (RequestURI r) x (Body r)
     (Error r).

(** What the recorder stores after building the snapshot: the bytes
    read from the body and the error of that read. *)
Definition set_Body (body : list byte) (err : error) (r : t) : t :=
  mk (Method r) (URL r) (Proto r) (ProtoMajor r) (ProtoMinor r) (Header r)
     (ContentLength r) (TransferEncoding r) (Close r) (Host r) (Form r)
     (PostForm r) (Trailer r) (RemoteAddr r) (RequestURI r) (TLS r) body
     (gobError.mk err).
End gobRequest.

(** [type gobResponse struct] ([GobResponse] in gob.go). *)
Module gobResponse.
Record t := mk {
  Status : string;
  StatusCode : Z;
  Proto : string;
  ProtoMajor : Z;
  ProtoMinor : Z;
  Header : http.Header;
  ContentLength : Z;
  TransferEncoding : list string;
  Close : bool;
  Trailer : http.Header;
  TLS : option tls.ConnectionState;
  Body : list byte;
  Error : gobError.t
}.

Definition set_TLS (x : option tls.ConnectionState) (r : t) : t :=
  mk (Status r) (StatusCode r) (Proto r) (ProtoMajor r) (ProtoMinor r)
     (Header r) (ContentLength r) (TransferEncoding r) (Close r) (Trailer r)
     x (Body r) (Error r).

(** What the recorder stores after building the snapshot: the bytes
    read from the body and the error of that read. *)
Definition set_Body (body : list byte) (err : error) (r : t) : t :=
  mk (Status r) (StatusCode r) (Proto r) (ProtoMajor r) (ProtoMinor r)
     (Header r) (ContentLength r) (TransferEncoding r) (Close r) (Trailer r)
     (TLS r) body (gobError.mk err).
End gobResponse.

(** [type gobQuery struct] *)
Module gobQuery.
Record t := mk {
  Request : option gobRequest.t;
  Response : option gobResponse.t;
  Error : gobError.t
}.
End gobQuery.

(** [type RequestResponse struct]: the declaration is outside the
    sources; these are the fields [gobQuery.RequestResponse] and
    [requestResponseVS] assign, at the types of what they are assigned. *)
Module RequestResponse.
Record t := mk {
  Request : option http.Request.t;
  RequestBody : list byte;
  RequestBodyError : error;
  Response : option http.Response.t;
  ResponseBody : list byte;
  ResponseBodyError : error;
  Error : error
}.

(** [new(RequestResponse)] *)
Definition new : t := mk None [] None None [] None None.

Definition set_Request (x : option http.Request.t) (body : list byte)
    (bodyError : error) (rr : t) : t :=
  mk x body bodyError (Response rr) (ResponseBody rr) (ResponseBodyError rr)
     (Error rr).
Definition set_Response (x : option http.Response.t) (body : list byte)
    (bodyError : error) (rr : t) : t :=
  mk (Request rr) (RequestBody rr) (RequestBodyError rr) x body bodyError
     (Error rr).
Definition set_Error (x : error) (rr : t) : t :=
  mk (Request rr) (RequestBody rr) (RequestBodyError rr) (Response rr)
     (ResponseBody rr) (ResponseBodyError rr) x.
End RequestResponse.

(** Modelled from the spec: [panicIfError] is called by
    [gobQuery.RequestResponse] and is not among the sources.  A URL-parse
    failure "is fatal and aborts the entire reconstruction", "signaled as
    a non-recoverable failure to the caller, not a soft error value";
    the test recovers a [*dvrFailure].  With no error it returns. *)
Definition panicIfError (err : error) : Prog unit :=
  match err with
  | None => Ret tt
  | Some e => Panic (DvrFailure e)
  end.

Section Snapshots.

(** The method [String] of [*url.URL] and [url.Parse] of net/url. *)
Variable URL_String : url.URL → string.
Variable url_Parse : string → option url.URL * error.

(** The build tag [go1.3]: [true] selects golang_13plus.go, [false]
    the file of the functions that do nothing. *)
Variable go13 : bool.

(** [req.URL.String()]: the method reads the fields of its receiver,
    so a nil [*url.URL] faults. *)
Definition URL_String_call (u : option url.URL) : Prog string :=
  match u with
  | Some u => Ret (URL_String u)
  | None => Panic NilDereference
  end.

(** [func newGobRequestVS(req *http.Request, r *gobRequest)] *)
Definition newGobRequestVS (req : http.Request.t) (r : gobRequest.t)
  : gobRequest.t :=
  if go13 then gobRequest.set_TLS (http.Request.TLS req) r else r.

(** [func newGobResponseVS(resp *http.Response, r *gobResponse)] *)
Definition newGobResponseVS (resp : http.Response.t) (r : gobResponse.t)
  : gobResponse.t :=
  if go13 then gobResponse.set_TLS (http.Response.TLS resp) r else r.

(** [func newGobRequest(req *http.Request) *gobRequest] (package dvr). *)
Definition newGobRequest (req : option http.Request.t)
  : Prog (option gobRequest.t) :=
  match req with
  | None => Ret None
  | Some req =>
      URL <~ URL_String_call (http.Request.URL req) ;;
      let r :=
        gobRequest.mk
          (http.Request.Method req)
          URL
          (http.Request.Proto req)
          (http.Request.ProtoMajor req)
          (http.Request.ProtoMinor req)
          (http.Request.Header req)
          (http.Request.ContentLength req)
          (http.Request.TransferEncoding req)
          (http.Request.Close req)
          (http.Request.Host req)
          (http.Request.Form req)
          (http.Request.PostForm req)
          (http.Request.Trailer req)
          (http.Request.RemoteAddr req)
          (http.Request.RequestURI req)
          None [] (gobError.mk None) in
      Ret (Some (newGobRequestVS req r))
  end.

(** [func NewGobRequest(req *http.Request) *GobRequest] (gob.go). *)
Definition NewGobRequest (req : option http.Request.t)
  : Prog (option gobRequest.t) :=
  match req with
  | None => Ret None
  | Some req =>
      URL <~ URL_String_call (http.Request.URL req) ;;
      let r :=
        gobRequest.mk
          (http.Request.Method req)
          URL
          (http.Request.Proto req)
          (http.Request.ProtoMajor req)
          (http.Request.ProtoMinor req)
          (http.Request.Header req)
          (http.Request.ContentLength req)
          (http.Request.TransferEncoding req)
          (http.Request.Close req)
          (http.Request.Host req)
          (http.Request.Form req)
          (http.Request.PostForm req)
          (http.Request.Trailer req)
          (http.Request.RemoteAddr req)
          (http.Request.RequestURI req)
          None [] (gobError.mk None) in
      Ret (Some (newGobRequestVS req r))
  end.

(** [func newGobResponse(resp *http.Response) *gobResponse] *)
Definition newGobResponse (resp : option http.Response.t)
  : option gobResponse.t :=
  match resp with
  | None => None
  | Some resp =>
      let r :=
        gobResponse.mk
          (http.Response.Status resp)
          (http.Response.StatusCode resp)
          (http.Response.Proto resp)
          (http.Response.ProtoMajor resp)
          (http.Response.ProtoMinor resp)
          (http.Response.Header resp)
          (http.Response.ContentLength resp)
          (http.Response.TransferEncoding resp)
          (http.Response.Close resp)
          (http.Response.Trailer resp)
          None [] (gobError.mk None) in
      Some (newGobResponseVS resp r)
  end.

(** [func (g *gobQuery) requestResponseVS(rr *RequestResponse)] *)
Definition requestResponseVS (g : gobQuery.t) (rr : RequestResponse.t)
  : RequestResponse.t :=
  if go13 then
    let rr :=
      match gobQuery.Request g, RequestResponse.Request rr with
      | Some gReq, Some req =>
          RequestResponse.set_Request
            (Some (http.Request.set_TLS (gobRequest.TLS gReq) req))
            (RequestResponse.RequestBody rr)
            (RequestResponse.RequestBodyError rr) rr
      | _, _ => rr
      end in
    match gobQuery.Response g, RequestResponse.Response rr with
    | Some gResp, Some resp =>
        RequestResponse.set_Response
          (Some (http.Response.set_TLS (gobResponse.TLS gResp) resp))
          (RequestResponse.ResponseBody rr)
          (RequestResponse.ResponseBodyError rr) rr
    | _, _ => rr
    end
  else rr.

(** The request half of [RequestResponse]: [new(http.Request)] with
    the fields of the snapshot assigned; what is not assigned keeps its
    zero value. *)
Definition liveRequest (r : gobRequest.t) (URL : option url.URL)
  : http.Request.t :=
  http.Request.mk
    (gobRequest.Method r)
    URL
    (gobRequest.Proto r)
    (gobRequest.ProtoMajor r)
    (gobRequest.ProtoMinor r)
    (gobRequest.Header r)
    None
    (gobRequest.ContentLength r)
    (gobRequest.TransferEncoding r)
    (gobRequest.Close r)
    (gobRequest.Host r)
    (gobRequest.Form r)
    (gobRequest.PostForm r)
    (gobRequest.Trailer r)
    (gobRequest.RemoteAddr r)
    (gobRequest.RequestURI r)
    None.

(** The response half: [new(http.Response)] with the fields assigned. *)
Definition liveResponse (r : gobResponse.t) : http.Response.t :=
  http.Response.mk
    (gobResponse.Status r)
    (gobResponse.StatusCode r)
    (gobResponse.Proto r)
    (gobResponse.ProtoMajor r)
    (gobResponse.ProtoMinor r)
    (gobResponse.Header r)
    None
    (gobResponse.ContentLength r)
    (gobResponse.TransferEncoding r)
    (gobResponse.Close r)
    (gobResponse.Trailer r)
    None.

(** [func (g *gobQuery) RequestResponse() *RequestResponse] *)
Definition RequestResponse (g : gobQuery.t) : Prog RequestResponse.t :=
  let rr := RequestResponse.new in
  rr <~ match gobQuery.Request g with
        | Some gReq =>
            let '(URL, err) := url_Parse (gobRequest.URL gReq) in
            _ <~ panicIfError err ;;
            Ret (RequestResponse.set_Request
                   (Some (liveRequest gReq URL))
                   (gobRequest.Body gReq)
                   (gobError.Error (gobRequest.Error gReq)) rr)
        | None => Ret rr
        end ;;
  let rr :=
    match gobQuery.Response g with
    | Some gResp =>
        RequestResponse.set_Response
          (Some (liveResponse gResp))
          (gobResponse.Body gResp)
          (gobError.Error (gobResponse.Error gResp)) rr
    | None => rr
    end in
  let rr := requestResponseVS g rr in
  let rr := RequestResponse.set_Error (gobError.Error (gobQuery.Error g)) rr in
  Ret rr.

End Snapshots.

(* ===================================================================== *)
(** ** Stand-ins for the libraries, to run the code on samples            *)
(* ===================================================================== *)

(** A stand-in for net/url on plain URLs (no user information, no
    escapes): the scheme is split off as [getScheme] does, then the
    query, the fragment, the authority and the path. *)
Module SampleURL.

Definition isLetter (c : ascii) : bool :=
  let n := nat_of_ascii c in
  (((97 <=? n) && (n <=? 122)) || ((65 <=? n) && (n <=? 90)))%nat.

Definition isSchemeExtra (c : ascii) : bool :=
  let n := nat_of_ascii c in
  (((48 <=? n) && (n <=? 57)) || (n =? 43) || (n =? 45) || (n =? 46))%nat.

(** [func getScheme(rawURL string) (scheme, path string, err error)];
    [seen] is the part of [rawURL] before index [i], in reverse. *)
Fixpoint getSchemeFrom (seen : list ascii) (rest : string) (rawURL : string)
  : string * string * error :=
  match rest with
  | EmptyString => ("", rawURL, None)
  | String c rest' =>
      if isLetter c then getSchemeFrom (c :: seen) rest' rawURL
      else if isSchemeExtra c then
        match seen with
        | [] => ("", rawURL, None)
        | _ => getSchemeFrom (c :: seen) rest' rawURL
        end
      else if bool_decide (c = ":"%char) then
        match seen with
        | [] => ("", "", Some (errors_New "missing protocol scheme"))
        | _ => (String.string_of_list_ascii (rev seen), rest', None)
        end
      else ("", rawURL, None)
  end.

Definition getScheme (rawURL : string) : string * string * error :=
  getSchemeFrom [] rawURL rawURL.

(** [strings.Cut(s, sep)] for a one-byte separator. *)
Fixpoint cut (sep : ascii) (s : string) : string * string :=
  match s with
  | EmptyString => ("", "")
  | String c s' =>
      if bool_decide (c = sep) then ("", s')
      else let '(before, after) := cut sep s' in (String c before, after)
  end.

(** The authority and what follows it, from the text after [//]. *)
Fixpoint authority (s : string) : string * string :=
  match s with
  | EmptyString => ("", "")
  | String c s' =>
      if bool_decide (c = "/"%char) then ("", s)
      else let '(host, path) := authority s' in (String c host, path)
  end.

(** [strings.Contains(s, ":")] *)
Fixpoint hasColon (s : string) : bool :=
  match s with
  | EmptyString => false
  | String c s' => bool_decide (c = ":"%char) || hasColon s'
  end.

(** The error of [url.Parse]: [&url.Error{"parse", rawURL, err}]. *)
Definition parseError (rawURL : string) (err : Value) : Value :=
  VPtr (VData url_Error (DStruct [("Op", "parse"); ("URL", rawURL)])).

Definition Parse (rawURL : string) : option url.URL * error :=
  let '(u, frag) := cut "#" rawURL in
  match getScheme u with
  | (_, _, Some err) => (None, Some (parseError u err))
  | (scheme, rest, None) =>
      let '(rest, query) := cut "?" rest in
      match rest with
      | String "/" (String "/" auth) =>
          let '(host, path) := authority auth in
          (Some (url.mkURL scheme "" host path query frag), None)
      | String "/" _ =>
          (Some (url.mkURL scheme "" "" rest query frag), None)
      | _ =>
          if bool_decide (scheme ≠ "")
          then (Some (url.mkURL scheme rest "" "" query frag), None)
          else if hasColon (cut "/" rest).1
          then (None, Some (parseError u (errors_New
                 "first path segment in URL cannot contain colon")))
          else (Some (url.mkURL "" "" "" rest query frag), None)
      end
  end.

Definition String (u : url.URL) : string :=
  (if bool_decide (url.Scheme u ≠ "") then url.Scheme u +:+ ":" else "")
  +:+ (if bool_decide (url.Opaque u ≠ "") then url.Opaque u
       else (if bool_decide (url.Scheme u ≠ "") || bool_decide (url.Host u ≠ "")
             then "//" +:+ url.Host u else "")
            +:+ url.Path u)
  +:+ (if bool_decide (url.RawQuery u ≠ "") then "?" +:+ url.RawQuery u else "")
  +:+ (if bool_decide (url.Fragment u ≠ "") then "#" +:+ url.Fragment u else "").

End SampleURL.

(** Sample [Error] methods for the types of other packages: the string
    itself, or the first field. *)
Definition sampleForeign (T : Named) (d : Data) : string :=
  match d with
  | DString s => s
  | DStruct ((_, s) :: _) | DNested ((_, s) :: _) _ => s
  | DStruct [] | DNested [] _ => ""
  end.

(** [type customError string], the error type of the tests that the
    codec does not know. *)
Definition customErrorT : Named :=
  mkNamed "github.com/MiCHiLU/go-gob-http" "customError"
          "gobhttp.customError" ValueReceiver.
Definition customError (s : string) : Value := VData customErrorT (DString s).

(** [&http.ProtocolError{ErrorString: s}] *)
Definition protocolError (s : string) : Value :=
  VPtr (VData http_ProtocolError (DStruct [("ErrorString", s)])).

(** [&url.Error{Op: "Get", URL: "http://example.com/", Err: err}] *)
Definition urlError (err : Value) : Value :=
  VPtr (VData url_Error
          (DNested [("Op", "Get"); ("URL", "http://example.com/")]
                   (IHolds "Err" err INone))).

Definition sampleURL : url.URL :=
  url.mkURL "http" "" "example.com" "/path" "q=1" "".

Definition sampleRequest : http.Request.t :=
  http.Request.mk
    "POST" (Some sampleURL) "HTTP/1.1" 1 1
    {["Content-Type" := ["text/plain"]]}
    (Some (http.mkReadCloser [x68; x69] None))
    2 ["chunked"] true "example.com"
    {["a" := ["1"]]} {["b" := ["2"]]}
    {["X-Trailer" := ["t"]]}
    "10.0.0.1:1234" "/path?q=1"
    (Some (tls.mkConnectionState 771 true 4865 "example.com")).

(** [new(gobRequest)] with the URL assigned, as in the test. *)
Definition requestWithURL (URL : string) : gobRequest.t :=
  gobRequest.mk "" URL "" 0 0 ∅ 0 [] false "" ∅ ∅ ∅ "" "" None []
                (gobError.mk None).

(** The same request with no URL. *)
Definition requestWithoutURL : http.Request.t :=
  http.Request.mk
    "GET" None "HTTP/1.1" 1 1 ∅ None 0 [] false "example.com" ∅ ∅ ∅
    "10.0.0.1:1234" "/" None.

Definition sampleResponse : http.Response.t :=
  http.Response.mk
    "200 OK" 200 "HTTP/1.1" 1 1
    {["Content-Length" := ["2"]]}
    (Some (http.mkReadCloser [x6f; x6b] None))
    2 [] false ∅ None.

(* ===================================================================== *)
(** ** Lemmas on the model                                                *)
(* ===================================================================== *)

Lemma bind_Ret {A B : Type} (a : A) (f : A → Prog B) : bind (Ret a) f = f a.
Proof. reflexivity. Qed.

(** The walk written on values is the loop of the source: one step of it
    tests the kind and moves to [Elem]. *)
Lemma indirectOf_loop (value : rValue) :
  indirectOf value =
  match kindOf value with
  | KInterface | KPtr => indirectOf (Elem value)
  | _ => value
  end.
Proof. destruct value as [[T [s|fs|fs ifs]|v|t|ity v|ity]|]; reflexivity. Qed.

(** A program that only registers runs the same with any serializer. *)
Lemma run_registersOnly {A : Type} (G G' : Serializer) (p : Prog A)
    (reg : Gob.Registry) :
  registersOnly p = true → run G p reg = run G' p reg.
Proof.
  revert reg. induction p as [a|x|v k IH|raw k IH|data k IH];
    intros reg Hp; try reflexivity; try discriminate.
  simpl. destruct (Gob.Register v reg); [apply IH; exact Hp|reflexivity].
Qed.

Lemma init_registersOnly : registersOnly init = true.
Proof. vm_compute. reflexivity. Qed.

Lemma initOutcome_returned : initOutcome = Returned afterInit.
Proof.
  assert (H : isReturned initOutcome = true) by (vm_compute; reflexivity).
  unfold afterInit. destruct initOutcome; [reflexivity|discriminate].
Qed.

(** [init] returns, with any serializer: it only registers. *)
Lemma init_returns (G : Serializer) :
  run G init Gob.empty = Returned (encodableTypes0, registry0).
Proof.
  rewrite (run_registersOnly G nullSerializer init Gob.empty init_registersOnly).
  fold initOutcome. rewrite initOutcome_returned.
  unfold encodableTypes0, registry0. destruct afterInit. reflexivity.
Qed.

Lemma registered_all : forallb registeredCheck registeredErrorTypes = true.
Proof. vm_compute. reflexivity. Qed.

Lemma registered_facts (T : Named) :
  T ∈ registeredErrorTypes →
  encodableTypes0 !! typeId (Defined T) = Some true
  ∧ Gob.wireType registry0 (VData T (DString "")) = Some (PtrTo (Defined T))
  ∧ typeId (Defined T) ≠ "errors.errorString".
Proof.
  intros HT. apply list_elem_of_In in HT.
  pose proof registered_all as Hall.
  rewrite forallb_forall in Hall. specialize (Hall T HT).
  unfold registeredCheck in Hall.
  apply andb_prop in Hall as [Hall H3]. apply andb_prop in Hall as [H1 H2].
  apply bool_decide_eq_true_1 in H1, H2, H3. auto.
Qed.

(** gob looks a value up by the type its pointers lead to. *)
Lemma wireType_base (reg : Gob.Registry) (v : Value) (d : Data) :
  Gob.wireType reg v = Gob.wireType reg (VData (Gob.baseNamed (typeOf v)) d).
Proof. reflexivity. Qed.

Section ModelLemmas.

Variable foreign : Named → Data → string.

Lemma indir_spec (v : Value) (T : Named) (d : Data) :
  Gob.indir v = Some (VData T d) →
  Gob.baseNamed (typeOf v) = T
  ∧ indirect v = Some (VData T d)
  ∧ callError foreign v = Ret (Error_method foreign T d).
Proof.
  induction v as [T' d'|v IH|t|ity v IH|ity]; simpl; intros H;
    try discriminate.
  - injection H as -> ->. auto.
  - auto.
Qed.

Lemma indirect_spec (v leaf : Value) :
  indirect v = Some leaf →
  ∃ T d, leaf = VData T d
         ∧ callError foreign v = Ret (Error_method foreign T d).
Proof.
  induction v as [T' d'|v IH|t|ity v IH|ity]; simpl; intros H;
    try discriminate; auto.
  injection H as <-. eauto.
Qed.

(** A typed nil pointer stops the walk on the zero Value. *)
Lemma indirect_nil (t : GoType) : indirect (VNil t) = None.
Proof. reflexivity. Qed.

(** Encoding an error of a registered type sends the error itself. *)
Lemma GobEncode_registered (e : Value) (T : Named) (d : Data) :
  T ∈ registeredErrorTypes →
  Gob.indir e = Some (VData T d) →
  GobEncode foreign encodableTypes0 (gobError.mk (Some e))
  = CallEncode (gobRawError.mk (Some e) false) (λ bytes err, Ret (bytes, err)).
Proof.
  intros HT He.
  destruct (registered_facts T HT) as (Het & _ & Hid).
  destruct (indir_spec e T d He) as (_ & Hwalk & _).
  unfold GobEncode. cbn [gobError.Error indirectOf ValueOf].
  rewrite Hwalk. cbn [reflect_Type bind typeOf].
  change (typePkgPath (Defined T) +:+ "." +:+ typeName (Defined T))
    with (typeId (Defined T)).
  rewrite Het. cbn [bind].
  rewrite bool_decide_eq_false_2 by exact Hid. reflexivity.
Qed.

(** Encoding an error whose type is not registered sends a
    [gobSafeError] with its message. *)
Lemma GobEncode_unregistered (e : Value) (T : Named) (d : Data) :
  indirect e = Some (VData T d) →
  encodableTypes0 !! typeId (Defined T) = None →
  GobEncode foreign encodableTypes0 (gobError.mk (Some e))
  = CallEncode
      (gobRawError.mk (Some (gobSafeError (Error_method foreign T d)))
                      (bool_decide (typeId (Defined T) = "errors.errorString")))
      (λ bytes err, Ret (bytes, err)).
Proof.
  intros Hwalk Het.
  destruct (indirect_spec e _ Hwalk) as (T' & d' & Heq & Hcall).
  injection Heq as <- <-.
  unfold GobEncode. cbn [gobError.Error indirectOf ValueOf].
  rewrite Hwalk. cbn [reflect_Type bind typeOf].
  change (typePkgPath (Defined T) +:+ "." +:+ typeName (Defined T))
    with (typeId (Defined T)).
  rewrite Het. rewrite Hcall. reflexivity.
Qed.

(** On bytes the deserializer accepts, [GobDecode] hands back the
    payload, or a fresh [errors.New] of its message when the flag is set. *)
Lemma GobDecode_accepts (G : Serializer) (reg : Gob.Registry)
    (g : gobError.t) (data : list byte) (payload : Value) (flag : bool)
    (T : Named) (d : Data) :
  data ≠ [] →
  Decode G reg data = (gobRawError.mk (Some payload) flag, None) →
  indirect payload = Some (VData T d) →
  run G (GobDecode foreign g data) reg
  = Returned
      ((gobError.mk
          (Some (if flag then errors_New (Error_method foreign T d)
                 else payload)), None), reg).
Proof.
  intros Hne Hdec Hwalk.
  destruct (indirect_spec payload _ Hwalk) as (T' & d' & Heq & Hcall).
  injection Heq as <- <-.
  unfold GobDecode. destruct data as [|b data]; [done|].
  cbn [length bool_decide decide_rel]. simpl bool_decide.
  cbn [run]. rewrite Hdec.
  cbn [gobRawError.ErrorsErrorString gobRawError.Error].
  destruct flag; [rewrite Hcall|]; reflexivity.
Qed.

(** gob carries a value by what its pointers lead to. *)
Lemma carried_indir (reg : Gob.Registry) (v : Value) (T : Named) (d : Data) :
  Gob.indir v = Some (VData T d) →
  Gob.carried reg v = Gob.carried reg (VData T d).
Proof.
  induction v as [T' d'|v IH|t|ity v IH|ity]; cbn [Gob.indir];
    intros H; try discriminate.
  - injection H as -> ->. reflexivity.
  - cbn [Gob.carried]. exact (IH H).
Qed.

(** A value of a registered type travels as [*T], in the state of
    [init], when gob carries its state. *)
Lemma carried_registered (v : Value) (T : Named) (d : Data) :
  T ∈ registeredErrorTypes →
  Gob.indir v = Some (VData T d) →
  Gob.carried registry0 v
  = (λ d', VPtr (VData T d')) <$> Gob.carriedData registry0 d.
Proof.
  intros HT Hv. rewrite (carried_indir registry0 v T d Hv).
  destruct (registered_facts T HT) as (_ & Hwire & _).
  cbn [Gob.carried].
  rewrite (wireType_base registry0 (VData T d) (DString "")).
  cbn [typeOf Gob.baseNamed]. rewrite Hwire.
  rewrite decide_True by reflexivity.
  destruct (Gob.carriedData registry0 d); reflexivity.
Qed.

(** What a serializer that keeps the contract does with a payload of a
    registered type, in the state [init] leaves. *)
Lemma transmits_registered (G : Serializer) (raw : gobRawError.t)
    (v : Value) (T : Named) (d d' : Data) :
  transmits G →
  T ∈ registeredErrorTypes →
  gobRawError.Error raw = Some v →
  Gob.indir v = Some (VData T d) →
  Gob.carriedData registry0 d = Some d' →
  ∃ data : list byte,
    Encode G registry0 raw = (data, None)
    ∧ data ≠ []
    ∧ Decode G registry0 data
      = (gobRawError.mk (Some (VPtr (VData T d')))
                        (gobRawError.ErrorsErrorString raw), None).
Proof.
  intros HG HT Hraw Hv Hd.
  apply (HG registry0 raw v (VPtr (VData T d')) Hraw).
  rewrite (carried_registered v T d HT Hv), Hd. reflexivity.
Qed.

End ModelLemmas.

(** The reference serializer keeps the contract. *)
Lemma unbits_bits (p : positive) : RefGob.unbits (RefGob.bits p) = Some p.
Proof. induction p as [p IH|p IH|]; simpl; [rewrite IH..|]; reflexivity. Qed.

Lemma fieldsOfTree_fieldTree (fields : list (string * string)) :
  mapM RefGob.fieldOfTree (RefGob.fieldTree <$> fields) = Some fields.
Proof.
  induction fields as [|[n s] fields IH]; [reflexivity|].
  cbn. cbn in IH. rewrite IH. reflexivity.
Qed.

Lemma ofTree_tree :
  (∀ v, RefGob.valueOfTree (RefGob.valueTree v) = Some v)
  ∧ (∀ d, RefGob.dataOfTree (RefGob.dataTree d) = Some d)
  ∧ (∀ ifs, RefGob.ifacesOfTree (RefGob.ifacesTree ifs) = Some ifs).
Proof.
  apply Value_Data_Ifaces_ind.
  - intros T d IH. cbn. rewrite IH. reflexivity.
  - intros v IH. cbn. rewrite IH. reflexivity.
  - reflexivity.
  - intros ity v IH. cbn. rewrite IH. reflexivity.
  - reflexivity.
  - reflexivity.
  - intros fields. cbn [RefGob.dataTree RefGob.dataOfTree].
    rewrite fieldsOfTree_fieldTree. reflexivity.
  - intros fields ifs IH. cbn [RefGob.dataTree RefGob.dataOfTree].
    rewrite fieldsOfTree_fieldTree. cbn. rewrite IH. reflexivity.
  - reflexivity.
  - intros n v IHv rest IHr. cbn. rewrite IHv. cbn. rewrite IHr. reflexivity.
  - intros n rest IH. cbn. rewrite IH. reflexivity.
Qed.

Lemma read_write (w : RefGob.Wire) : RefGob.read (RefGob.write w) = Some w.
Proof.
  unfold RefGob.read, RefGob.write, RefGob.header.
  rewrite unbits_bits. cbn [mbind option_bind].
  rewrite decode_encode. cbn [mbind option_bind].
  destruct w as [[[name d]|] flag]; unfold RefGob.wireTree, RefGob.wireOfTree;
    cbn; [|reflexivity].
  destruct ofTree_tree as (_ & Hd & _). rewrite Hd. reflexivity.
Qed.

(** What the reference encoder does with a payload gob carries. *)
Lemma carried_shape (reg : Gob.Registry) (v v' : Value) :
  Gob.carried reg v = Some v' →
  ∃ T d d' name typ,
    Gob.indir v = Some (VData T d)
    ∧ Gob.concreteTypeToName reg !! Gob.userBase (typeOf v) = Some name
    ∧ Gob.nameToConcreteType reg !! name = Some typ
    ∧ Gob.baseNamed typ = T
    ∧ Gob.carriedData reg d = Some d'
    ∧ v' = Gob.alloc typ (VData T d').
Proof.
  induction v as [T d|v IH|t|ity v IH|ity]; cbn [Gob.carried];
    intros H; try discriminate.
  - unfold Gob.wireType in H. cbn [typeOf] in H.
    destruct (Gob.concreteTypeToName reg !! Gob.userBase (Defined T))
      as [name|] eqn:Hname; [|discriminate].
    cbn in H.
    destruct (Gob.nameToConcreteType reg !! name) as [typ|] eqn:Htyp;
      [|discriminate].
    case_decide as Hbase; [|discriminate].
    destruct (Gob.carriedData reg d) as [d'|] eqn:Hd; [|discriminate].
    injection H as <-.
    exists T, d, d', name, typ. split_and!; try reflexivity; try assumption.
    unfold Gob.userBase in Hbase. congruence.
  - destruct (IH H) as (T & d & d' & name & typ & H1 & H2 & H3 & H4 & H5 & H6).
    exists T, d, d', name, typ. split_and!; assumption.
Qed.

Lemma RefGob_transmits : transmits RefGob.serializer.
Proof.
  intros reg raw v v' Hraw Hv.
  destruct (carried_shape reg v v' Hv)
    as (T & d & d' & name & typ & Hind & Hname & Htyp & Hbase & Hd & ->).
  exists (RefGob.write (Some (name, d), gobRawError.ErrorsErrorString raw)).
  split; [|split].
  - cbn [Encode RefGob.serializer]. unfold RefGob.refEncode.
    rewrite Hraw, Hind, Hname, Hv. reflexivity.
  - discriminate.
  - cbn [Decode RefGob.serializer]. unfold RefGob.refDecode.
    rewrite read_write, Htyp, Hd, Hbase. reflexivity.
Qed.

Lemma RefGob_refuses : refuses RefGob.serializer.
Proof.
  intros reg raw v Hraw Hv.
  cbn [Encode RefGob.serializer]. unfold RefGob.refEncode.
  rewrite Hraw, Hv.
  destruct (Gob.indir v) as [leaf|]; [|eauto].
  destruct (Gob.concreteTypeToName reg !! Gob.userBase (typeOf v));
    [|eauto].
  destruct leaf; eauto.
Qed.

(* ===================================================================== *)
(** ** The codec: round trips                                             *)
(* ===================================================================== *)

Section CodecLemmas.

Variable foreign : Named → Data → string.
Variable G : Serializer.
Hypothesis G_transmits : transmits G.

(** An error of a registered type whose state gob carries: the envelope
    holds the error itself, and what comes back is the pointer [*T] to
    the value with the state as gob delivers it. *)
Lemma registered_roundtrip_general (g : gobError.t) (e : Value)
    (T : Named) (d d' : Data) :
  T ∈ registeredErrorTypes →
  Gob.indir e = Some (VData T d) →
  Gob.carriedData registry0 d = Some d' →
  ∃ data : list byte,
    run G (GobEncode foreign encodableTypes0 (gobError.mk (Some e))) registry0
    = Returned ((data, None), registry0)
    ∧ run G (GobDecode foreign g data) registry0
      = Returned ((gobError.mk (Some (VPtr (VData T d'))), None), registry0).
Proof.
  intros HT He Hd.
  destruct (transmits_registered G (gobRawError.mk (Some e) false)
              e T d d' G_transmits HT eq_refl He Hd)
    as (data & Henc & Hne & Hdec).
  exists data. split.
  - rewrite (GobEncode_registered foreign e T d HT He).
    cbn [run]. rewrite Henc. reflexivity.
  - cbn [gobRawError.ErrorsErrorString] in Hdec.
    apply (GobDecode_accepts foreign G registry0 g data _ false T d' Hne Hdec).
    reflexivity.
Qed.

(** An error of a type that is not registered: the envelope carries a
    [gobSafeError] with the message, and what comes back is a
    [*gobSafeError], or a fresh [errors.New] when the flag is set. *)
Lemma unregistered_roundtrip_general (g : gobError.t) (e : Value)
    (T : Named) (d : Data) :
  indirect e = Some (VData T d) →
  encodableTypes0 !! typeId (Defined T) = None →
  let msg := Error_method foreign T d in
  let flag := bool_decide (typeId (Defined T) = "errors.errorString") in
  ∃ data : list byte,
    run G (GobEncode foreign encodableTypes0 (gobError.mk (Some e))) registry0
    = Returned ((data, None), registry0)
    ∧ run G (GobDecode foreign g data) registry0
      = Returned
          ((gobError.mk
              (Some (if flag then errors_New msg else VPtr (gobSafeError msg))),
            None), registry0).
Proof.
  intros Hwalk Het msg flag.
  assert (HT : gobSafeErrorT ∈ registeredErrorTypes) by (left; reflexivity).
  destruct (transmits_registered G
              (gobRawError.mk (Some (gobSafeError msg)) flag)
              (gobSafeError msg) gobSafeErrorT (DString msg) (DString msg)
              G_transmits HT eq_refl eq_refl eq_refl)
    as (data & Henc & Hne & Hdec).
  exists data. split.
  - rewrite (GobEncode_unregistered foreign e T d Hwalk Het).
    cbn [run]. fold msg flag. rewrite Henc. reflexivity.
  - cbn [gobRawError.ErrorsErrorString] in Hdec.
    rewrite (GobDecode_accepts foreign G registry0 g data _ flag
               gobSafeErrorT (DString msg) Hne Hdec eq_refl).
    destruct flag; reflexivity.
Qed.

End CodecLemmas.

Lemma errorString_unregistered :
  encodableTypes0 !! typeId (Defined errorStringT) = None.
Proof. vm_compute. reflexivity. Qed.

Lemma customError_unregistered :
  encodableTypes0 !! typeId (Defined customErrorT) = None.
Proof. vm_compute. reflexivity. Qed.

(** C1 (as amended).  For every error type [T] that [init] registers
    through [registerErrorType] and every error [e] that is a [T] value or
    a non-nil pointer to one:
    - when gob carries the state of [e] (some field is exported, and
      every exported interface field is nil or holds a non-nil value of
      a type registered with gob, and so on inside), encoding succeeds
      and decoding yields the pointer [*T] to the [T] value with the
      state as gob delivers it: exported fields as they were, each held
      interface value allocated at its registered pointer type; so the
      concrete type reached by the walk is the type of [e]'s, and when
      the state is delivered unchanged the decoded error reaches an
      equal value, has the message of [e], and is [e] itself when [e]
      is that pointer;
    - when gob does not carry the state, [GobEncode] returns the error
      of the encoder. *)
Theorem registered_roundtrip (foreign : Named → Data → string)
    (G : Serializer) (g : gobError.t) (e : Value) (T : Named) (d : Data) :
  transmits G →
  refuses G →
  T ∈ registeredErrorTypes →
  Gob.indir e = Some (VData T d) →
  match Gob.carriedData registry0 d with
  | Some d' =>
      ∃ (data : list byte) (e' : Value),
        run G (GobEncode foreign encodableTypes0 (gobError.mk (Some e)))
            registry0
        = Returned ((data, None), registry0)
        ∧ run G (GobDecode foreign g data) registry0
          = Returned ((gobError.mk (Some e'), None), registry0)
        ∧ e' = VPtr (VData T d')
        ∧ typeOf <$> indirect e' = typeOf <$> indirect e
        ∧ (d' = d →
           indirect e' = indirect e
           ∧ callError foreign e' = callError foreign e
           ∧ (e = VPtr (VData T d) → e' = e))
  | None =>
      ∃ (data : list byte) (err : Value),
        run G (GobEncode foreign encodableTypes0 (gobError.mk (Some e)))
            registry0
        = Returned ((data, Some err), registry0)
  end.
Proof.
  intros HG HR HT He.
  destruct (indir_spec foreign e T d He) as (_ & Hwalk & Hcall).
  destruct (Gob.carriedData registry0 d) as [d'|] eqn:Hd.
  - destruct (registered_roundtrip_general foreign G HG g e T d d' HT He Hd)
      as (data & Henc & Hdec).
    exists data, (VPtr (VData T d')). split_and!.
    + exact Henc.
    + exact Hdec.
    + reflexivity.
    + rewrite Hwalk. reflexivity.
    + intros ->. split_and!.
      * rewrite Hwalk. reflexivity.
      * rewrite Hcall. reflexivity.
      * intros ->. reflexivity.
  - destruct (HR registry0 (gobRawError.mk (Some e) false) e eq_refl)
      as (data & err & Henc).
    { rewrite (carried_registered e T d HT He), Hd. reflexivity. }
    exists data, err.
    rewrite (GobEncode_registered foreign e T d HT He).
    cbn [run]. rewrite Henc. reflexivity.
Qed.

Lemma registered_roundtrip_witness :
  ∃ (data : list byte) (e' : Value),
    run RefGob.serializer
        (GobEncode sampleForeign encodableTypes0
           (gobError.mk (Some (protocolError "Expected")))) registry0
    = Returned ((data, None), registry0)
    ∧ run RefGob.serializer (GobDecode sampleForeign (gobError.mk None) data)
          registry0
      = Returned ((gobError.mk (Some e'), None), registry0)
    ∧ e' = protocolError "Expected"
    ∧ typeOf <$> indirect e' = typeOf <$> indirect (protocolError "Expected")
    ∧ (DStruct [("ErrorString", "Expected")]
       = DStruct [("ErrorString", "Expected")] →
       indirect e' = indirect (protocolError "Expected")
       ∧ callError sampleForeign e'
         = callError sampleForeign (protocolError "Expected")
       ∧ (protocolError "Expected" = protocolError "Expected"
          → e' = protocolError "Expected")).
Proof.
  apply (registered_roundtrip sampleForeign RefGob.serializer (gobError.mk None)
           (protocolError "Expected") http_ProtocolError
           (DStruct [("ErrorString", "Expected")])).
  - exact RefGob_transmits.
  - exact RefGob_refuses.
  - unfold registeredErrorTypes. right. left.
  - reflexivity.
Defined.

Lemma carried_urlError_escape :
  Gob.carriedData registry0
    (DNested [("Op", "Get"); ("URL", "http://example.com/")]
       (IHolds "Err" (VData url_EscapeError (DString "%zz")) INone))
  = Some (DNested [("Op", "Get"); ("URL", "http://example.com/")]
            (IHolds "Err" (VPtr (VData url_EscapeError (DString "%zz")))
                    INone)).
Proof. vm_compute. reflexivity. Qed.

Lemma encode_urlError_errorString :
  RefGob.refEncode registry0
    (gobRawError.mk (Some (urlError (errors_New "refused"))) false)
  = ([], Some (errors_New "gob: cannot encode the value")).
Proof. vm_compute. reflexivity. Qed.

(** C1, as stated, fails at three values of registered types.  A plain
    [gobSafeError] value comes back as a [*gobSafeError], whose type is
    not the type of what was encoded.  For a [*url.Error] whose [Err]
    holds an [errors.New] error, encoding returns the error of the
    encoder and there is nothing to decode.  A [*url.Error] whose [Err]
    holds a plain [url.EscapeError] comes back with a
    [*url.EscapeError] in [Err], a value that is not the one encoded. *)
Lemma registered_value_returns_as_pointer :
  (gobSafeErrorT ∈ registeredErrorTypes
   ∧ ∃ data : list byte,
       run RefGob.serializer
           (GobEncode sampleForeign encodableTypes0
              (gobError.mk (Some (gobSafeError "Unexpected")))) registry0
       = Returned ((data, None), registry0)
       ∧ run RefGob.serializer (GobDecode sampleForeign (gobError.mk None) data)
             registry0
         = Returned
             ((gobError.mk (Some (VPtr (gobSafeError "Unexpected"))), None),
              registry0)
       ∧ VPtr (gobSafeError "Unexpected") ≠ gobSafeError "Unexpected"
       ∧ typeOf (VPtr (gobSafeError "Unexpected"))
         ≠ typeOf (gobSafeError "Unexpected"))
  ∧ (url_Error ∈ registeredErrorTypes
     ∧ run RefGob.serializer
           (GobEncode sampleForeign encodableTypes0
              (gobError.mk (Some (urlError (errors_New "refused")))))
           registry0
       = Returned
           (([], Some (errors_New "gob: cannot encode the value")), registry0))
  ∧ (∃ data : list byte,
       run RefGob.serializer
           (GobEncode sampleForeign encodableTypes0
              (gobError.mk
                 (Some (urlError (VData url_EscapeError (DString "%zz"))))))
           registry0
       = Returned ((data, None), registry0)
       ∧ run RefGob.serializer (GobDecode sampleForeign (gobError.mk None) data)
             registry0
         = Returned
             ((gobError.mk
                 (Some (urlError (VPtr (VData url_EscapeError (DString "%zz"))))),
               None), registry0)
       ∧ urlError (VPtr (VData url_EscapeError (DString "%zz")))
         ≠ urlError (VData url_EscapeError (DString "%zz"))).
Proof.
  assert (HT : gobSafeErrorT ∈ registeredErrorTypes) by (left; reflexivity).
  assert (HU : url_Error ∈ registeredErrorTypes)
    by (unfold registeredErrorTypes; do 9 right; left).
  split_and!.
  - exact HT.
  - destruct (registered_roundtrip_general sampleForeign RefGob.serializer
                RefGob_transmits (gobError.mk None) (gobSafeError "Unexpected")
                gobSafeErrorT (DString "Unexpected") (DString "Unexpected")
                HT eq_refl eq_refl) as (data & Henc & Hdec).
    exists data. split_and!; try assumption; discriminate.
  - exact HU.
  - rewrite (GobEncode_registered sampleForeign
               (urlError (errors_New "refused")) url_Error _ HU eq_refl).
    cbn [run Encode RefGob.serializer].
    rewrite encode_urlError_errorString. reflexivity.
  - destruct (registered_roundtrip_general sampleForeign RefGob.serializer
                RefGob_transmits (gobError.mk None)
                (urlError (VData url_EscapeError (DString "%zz")))
                url_Error _ _ HU eq_refl carried_urlError_escape)
      as (data & Henc & Hdec).
    exists data. split_and!; try assumption. discriminate.
Qed.




(** C6.  For every text, encoding [errors.New(text)] sets the flag
    [ErrorsErrorString] in the envelope (whose payload is the
    [gobSafeError] of the text), and decoding yields [errors.New(text)]
    again: an [*errors.errorString] with the same message, not a
    [*gobSafeError]. *)
Theorem bare_string_roundtrip (foreign : Named → Data → string)
    (G : Serializer) (g : gobError.t) (text : string) :
  transmits G →
  GobEncode foreign encodableTypes0 (gobError.mk (Some (errors_New text)))
  = CallEncode (gobRawError.mk (Some (gobSafeError text)) true)
               (λ bytes err, Ret (bytes, err))
  ∧ ∃ data : list byte,
      run G (GobEncode foreign encodableTypes0
               (gobError.mk (Some (errors_New text)))) registry0
      = Returned ((data, None), registry0)
      ∧ run G (GobDecode foreign g data) registry0
        = Returned ((gobError.mk (Some (errors_New text)), None), registry0)
      ∧ typeOf (errors_New text) = PtrTo (Defined errorStringT)
      ∧ callError foreign (errors_New text) = Ret text
      ∧ errors_New text ≠ VPtr (gobSafeError text).
Proof.
  intros HG. split.
  - rewrite (GobEncode_unregistered foreign (errors_New text) errorStringT
               (DStruct [("s", text)]) eq_refl errorString_unregistered).
    reflexivity.
  - destruct (unregistered_roundtrip_general foreign G HG g (errors_New text)
                errorStringT (DStruct [("s", text)]) eq_refl
                errorString_unregistered) as (data & Henc & Hdec).
    exists data. split_and!; try assumption; try reflexivity; discriminate.
Qed.

Lemma bare_string_roundtrip_witness :
  GobEncode sampleForeign encodableTypes0
    (gobError.mk (Some (errors_New "Expected")))
  = CallEncode (gobRawError.mk (Some (gobSafeError "Expected")) true)
               (λ bytes err, Ret (bytes, err))
  ∧ ∃ data : list byte,
      run RefGob.serializer
          (GobEncode sampleForeign encodableTypes0
             (gobError.mk (Some (errors_New "Expected")))) registry0
      = Returned ((data, None), registry0)
      ∧ run RefGob.serializer (GobDecode sampleForeign (gobError.mk None) data)
            registry0
        = Returned ((gobError.mk (Some (errors_New "Expected")), None),
                    registry0)
      ∧ typeOf (errors_New "Expected") = PtrTo (Defined errorStringT)
      ∧ callError sampleForeign (errors_New "Expected") = Ret "Expected"
      ∧ errors_New "Expected" ≠ VPtr (gobSafeError "Expected").
Proof.
  apply (bare_string_roundtrip sampleForeign RefGob.serializer
           (gobError.mk None) "Expected").
  exact RefGob_transmits.
Defined.

(* ===================================================================== *)
(** ** The codec: absent errors, malformed bytes, typed nil pointers      *)
(* ===================================================================== *)

(** C5.  Encoding the absent error returns the empty byte sequence and
    decoding the empty byte sequence returns the absent error; neither
    program contains a call into the serializer, and the two compose to
    the absent error with any serializer and any registry. *)
Theorem absent_error_roundtrip (foreign : Named → Data → string)
    (encodableTypes : gmap string bool) (g : gobError.t) :
  GobEncode foreign encodableTypes (gobError.mk None) = Ret ([], None)
  ∧ GobDecode foreign g [] = Ret (gobError.mk None, None)
  ∧ (encoded <~ GobEncode foreign encodableTypes (gobError.mk None) ;;
     GobDecode foreign g encoded.1) = Ret (gobError.mk None, None)
  ∧ ∀ (G : Serializer) (reg : Gob.Registry),
      run G (encoded <~ GobEncode foreign encodableTypes (gobError.mk None) ;;
             GobDecode foreign g encoded.1) reg
      = Returned ((gobError.mk None, None), reg).
Proof. split_and!; reflexivity. Qed.

(** C4.  On a non-empty byte sequence for which the deserializer reports
    an error, [GobDecode] returns: it hands back that very error, which
    is not the absent error, and leaves its receiver as it was. *)
Theorem malformed_bytes_rejected (foreign : Named → Data → string)
    (G : Serializer) (reg : Gob.Registry) (g : gobError.t)
    (data : list byte) (raw : gobRawError.t) (err : Value) :
  data ≠ [] →
  Decode G reg data = (raw, Some err) →
  run G (GobDecode foreign g data) reg = Returned ((g, Some err), reg).
Proof.
  intros Hne Hdec. unfold GobDecode.
  destruct data as [|b data]; [done|].
  simpl bool_decide. cbn [run]. rewrite Hdec. reflexivity.
Qed.

Lemma malformed_bytes_rejected_witness :
  [x00; x01; x02; x03] ≠ []
  ∧ Decode RefGob.serializer registry0 [x00; x01; x02; x03]
    = (RefGob.zero, Some (errors_New "gob: malformed input"))
  ∧ run RefGob.serializer
        (GobDecode sampleForeign (gobError.mk (Some (gobSafeError "before")))
           [x00; x01; x02; x03]) registry0
    = Returned ((gobError.mk (Some (gobSafeError "before")),
                 Some (errors_New "gob: malformed input")), registry0).
Proof.
  split; [discriminate|]. split; [reflexivity|].
  apply (malformed_bytes_rejected sampleForeign RefGob.serializer registry0
           (gobError.mk (Some (gobSafeError "before")))
           [x00; x01; x02; x03] RefGob.zero
           (errors_New "gob: malformed input")).
  - discriminate.
  - reflexivity.
Defined.

(** Encoding a nil pointer of any type panics in [reflect.Value.Type]. *)
Lemma GobEncode_typed_nil (foreign : Named → Data → string)
    (encodableTypes : gmap string bool) (t : GoType) :
  GobEncode foreign encodableTypes (gobError.mk (Some (VNil t)))
  = Panic (ReflectValueError "reflect.Value.Type" KInvalid).
Proof. reflexivity. Qed.

(** C9.  The interface value holding the nil pointer of type
    [*net.OpError] is not the nil interface and its type implements [error]; encoding it neither
    returns bytes nor returns an error: the walk ends on the zero Value
    and [Type] panics, before any call into the serializer. *)
Theorem typed_nil_encode_panics (foreign : Named → Data → string)
    (encodableTypes : gmap string bool) :
  let e := VNil (Defined net_OpError) in
  ValueOf (Some e) ≠ None
  ∧ implementsError (typeOf e) = true
  ∧ indirectOf (ValueOf (Some e)) = None
  ∧ GobEncode foreign encodableTypes (gobError.mk (Some e))
    = Panic (ReflectValueError "reflect.Value.Type" KInvalid)
  ∧ ∀ (G : Serializer) (reg : Gob.Registry),
      run G (GobEncode foreign encodableTypes (gobError.mk (Some e))) reg
      = Panicked (ReflectValueError "reflect.Value.Type" KInvalid).
Proof. split_and!; try reflexivity; discriminate. Qed.

(* ===================================================================== *)
(** ** The snapshots                                                      *)
(* ===================================================================== *)

(** C3.  If the request snapshot of a query is present and [url.Parse]
    reports an error on its URL, then [RequestResponse] panics with the
    failure of [panicIfError]: it returns no result, whatever else the
    query holds. *)
Theorem unparsable_url_is_fatal (url_Parse : string → option url.URL * error)
    (go13 : bool) (g : gobQuery.t) (gReq : gobRequest.t)
    (u : option url.URL) (err : Value) :
  gobQuery.Request g = Some gReq →
  url_Parse (gobRequest.URL gReq) = (u, Some err) →
  RequestResponse url_Parse go13 g = Panic (DvrFailure err)
  ∧ (∀ rr, RequestResponse url_Parse go13 g ≠ Ret rr)
  ∧ ∀ (G : Serializer) (reg : Gob.Registry),
      run G (RequestResponse url_Parse go13 g) reg = Panicked (DvrFailure err).
Proof.
  intros Hreq Hparse.
  assert (H : RequestResponse url_Parse go13 g = Panic (DvrFailure err)).
  { unfold RequestResponse. rewrite Hreq, Hparse. reflexivity. }
  split_and!.
  - exact H.
  - intros rr. rewrite H. discriminate.
  - intros G reg. rewrite H. reflexivity.
Qed.

Lemma unparsable_url_is_fatal_witness :
  let g := gobQuery.mk (Some (requestWithURL "://")) None (gobError.mk None) in
  let err := SampleURL.parseError "://" (errors_New "missing protocol scheme") in
  RequestResponse SampleURL.Parse true g = Panic (DvrFailure err)
  ∧ (∀ rr, RequestResponse SampleURL.Parse true g ≠ Ret rr)
  ∧ ∀ (G : Serializer) (reg : Gob.Registry),
      run G (RequestResponse SampleURL.Parse true g) reg
      = Panicked (DvrFailure err).
Proof.
  intros g err.
  apply (unparsable_url_is_fatal SampleURL.Parse true g
           (requestWithURL "://") None err); reflexivity.
Defined.

(** C10.  For every live request whose URL is nil, [NewGobRequest]
    panics on the call [req.URL.String()]: it builds no snapshot and
    returns no error. *)
Theorem nil_url_panics (URL_String : url.URL → string) (go13 : bool)
    (req : http.Request.t) :
  http.Request.URL req = None →
  NewGobRequest URL_String go13 (Some req) = Panic NilDereference
  ∧ ∀ (G : Serializer) (reg : Gob.Registry),
      run G (NewGobRequest URL_String go13 (Some req)) reg
      = Panicked NilDereference.
Proof.
  intros Hurl.
  assert (H : NewGobRequest URL_String go13 (Some req) = Panic NilDereference).
  { unfold NewGobRequest. rewrite Hurl. reflexivity. }
  split; [exact H|]. intros G reg. rewrite H. reflexivity.
Qed.

Lemma nil_url_panics_witness :
  http.Request.URL requestWithoutURL = None
  ∧ NewGobRequest SampleURL.String true (Some requestWithoutURL)
    = Panic NilDereference
  ∧ ∀ (G : Serializer) (reg : Gob.Registry),
      run G (NewGobRequest SampleURL.String true (Some requestWithoutURL)) reg
      = Panicked NilDereference.
Proof.
  split; [reflexivity|].
  apply (nil_url_panics SampleURL.String true requestWithoutURL).
  reflexivity.
Defined.

(** C8.  A nil request or response gives a nil snapshot, with no panic.
    A query without request snapshot is reconstructed, and the result
    has no request.  A query without response snapshot gives a result
    without response whenever [RequestResponse] returns, which it does
    unless the URL of the request snapshot fails to parse. *)
Theorem nil_passthrough (URL_String : url.URL → string)
    (url_Parse : string → option url.URL * error) (go13 : bool) :
  newGobRequest URL_String go13 None = Ret None
  ∧ NewGobRequest URL_String go13 None = Ret None
  ∧ newGobResponse go13 None = None
  ∧ (∀ (gResp : option gobResponse.t) (gErr : gobError.t),
       ∃ rr, RequestResponse url_Parse go13 (gobQuery.mk None gResp gErr)
             = Ret rr
             ∧ RequestResponse.Request rr = None)
  ∧ (∀ (gReq : option gobRequest.t) (gErr : gobError.t),
       match RequestResponse url_Parse go13 (gobQuery.mk gReq None gErr) with
       | Ret rr => RequestResponse.Response rr = None
       | Panic p =>
           ∃ r u err, gReq = Some r
                      ∧ url_Parse (gobRequest.URL r) = (u, Some err)
                      ∧ p = DvrFailure err
       | _ => False
       end)
  ∧ (∀ gErr : gobError.t,
       RequestResponse url_Parse go13 (gobQuery.mk None None gErr)
       = Ret (RequestResponse.mk None [] None None [] None
                                 (gobError.Error gErr))).
Proof.
  split_and!; try reflexivity.
  - intros gResp gErr. unfold RequestResponse. cbn [gobQuery.Request bind].
    eexists. split; [reflexivity|].
    unfold requestResponseVS. destruct go13, gResp; reflexivity.
  - intros [r|] gErr; unfold RequestResponse; cbn [gobQuery.Request].
    + destruct (url_Parse (gobRequest.URL r)) as [u [err|]] eqn:Hparse.
      * cbn. exists r, u, err. split_and!; [reflexivity|exact Hparse|reflexivity].
      * cbn. unfold requestResponseVS. destruct go13; reflexivity.
    + cbn. unfold requestResponseVS. destruct go13; reflexivity.
  - intros gErr. unfold RequestResponse, requestResponseVS.
    destruct go13; reflexivity.
Qed.

(** C7 (as amended).  For every live request [req] whose URL [u] is not
    nil and whose string form parses, to [u'], [newGobRequest] builds a
    snapshot with an empty body and no body-read error, whatever the live
    body holds; and whatever body bytes and body-read error are then
    stored in the snapshot, [RequestResponse] rebuilds a request with the
    method, protocol, protocol version, header, content length,
    transfer encoding, close flag, host, form, post form, trailer, remote
    address and request URI of [req], with [u'] as URL, with the TLS
    state of [req] under go1.3 and none otherwise, and with no body, and
    hands back the stored body bytes and body-read error next to it. *)
Theorem request_snapshot_roundtrip (URL_String : url.URL → string)
    (url_Parse : string → option url.URL * error) (go13 : bool)
    (req : http.Request.t) (u u' : url.URL) :
  http.Request.URL req = Some u →
  url_Parse (URL_String u) = (Some u', None) →
  ∃ r : gobRequest.t,
    newGobRequest URL_String go13 (Some req) = Ret (Some r)
    ∧ gobRequest.Body r = []
    ∧ gobError.Error (gobRequest.Error r) = None
    ∧ ∀ (body : list byte) (bodyErr : error)
        (gResp : option gobResponse.t) (gErr : gobError.t),
        ∃ rr : RequestResponse.t,
          RequestResponse url_Parse go13
            (gobQuery.mk (Some (gobRequest.set_Body body bodyErr r)) gResp gErr)
          = Ret rr
          ∧ RequestResponse.Request rr
            = Some (http.Request.mk
                      (http.Request.Method req)
                      (Some u')
                      (http.Request.Proto req)
                      (http.Request.ProtoMajor req)
                      (http.Request.ProtoMinor req)
                      (http.Request.Header req)
                      None
                      (http.Request.ContentLength req)
                      (http.Request.TransferEncoding req)
                      (http.Request.Close req)
                      (http.Request.Host req)
                      (http.Request.Form req)
                      (http.Request.PostForm req)
                      (http.Request.Trailer req)
                      (http.Request.RemoteAddr req)
                      (http.Request.RequestURI req)
                      (if go13 then http.Request.TLS req else None))
          ∧ RequestResponse.RequestBody rr = body
          ∧ RequestResponse.RequestBodyError rr = bodyErr.
Proof.
  intros Hurl Hparse.
  unfold newGobRequest. rewrite Hurl. cbn [URL_String_call bind].
  eexists. split; [reflexivity|].
  split; [unfold newGobRequestVS; destruct go13; reflexivity|].
  split; [unfold newGobRequestVS; destruct go13; reflexivity|].
  intros body bodyErr gResp gErr.
  unfold RequestResponse. cbn [gobQuery.Request].
  assert (HURL : gobRequest.URL
                   (gobRequest.set_Body body bodyErr
                      (newGobRequestVS go13 req
                         (gobRequest.mk
                            (http.Request.Method req) (URL_String u)
                            (http.Request.Proto req)
                            (http.Request.ProtoMajor req)
                            (http.Request.ProtoMinor req)
                            (http.Request.Header req)
                            (http.Request.ContentLength req)
                            (http.Request.TransferEncoding req)
                            (http.Request.Close req)
                            (http.Request.Host req)
                            (http.Request.Form req)
                            (http.Request.PostForm req)
                            (http.Request.Trailer req)
                            (http.Request.RemoteAddr req)
                            (http.Request.RequestURI req)
                            None [] (gobError.mk None))))
                 = URL_String u).
  { unfold newGobRequestVS. destruct go13; reflexivity. }
  rewrite HURL, Hparse. cbn [panicIfError bind].
  eexists. split; [reflexivity|].
  unfold requestResponseVS, newGobRequestVS.
  destruct go13, gResp; split_and!; reflexivity.
Qed.

Lemma request_snapshot_roundtrip_witness :
  http.Request.URL sampleRequest = Some sampleURL
  ∧ SampleURL.Parse (SampleURL.String sampleURL) = (Some sampleURL, None)
  ∧ ∃ r : gobRequest.t,
      newGobRequest SampleURL.String true (Some sampleRequest) = Ret (Some r)
      ∧ gobRequest.Body r = []
      ∧ gobError.Error (gobRequest.Error r) = None
      ∧ ∀ (body : list byte) (bodyErr : error)
          (gResp : option gobResponse.t) (gErr : gobError.t),
          ∃ rr : RequestResponse.t,
            RequestResponse SampleURL.Parse true
              (gobQuery.mk (Some (gobRequest.set_Body body bodyErr r)) gResp gErr)
            = Ret rr
            ∧ RequestResponse.Request rr
              = Some (http.Request.mk
                        (http.Request.Method sampleRequest)
                        (Some sampleURL)
                        (http.Request.Proto sampleRequest)
                        (http.Request.ProtoMajor sampleRequest)
                        (http.Request.ProtoMinor sampleRequest)
                        (http.Request.Header sampleRequest)
                        None
                        (http.Request.ContentLength sampleRequest)
                        (http.Request.TransferEncoding sampleRequest)
                        (http.Request.Close sampleRequest)
                        (http.Request.Host sampleRequest)
                        (http.Request.Form sampleRequest)
                        (http.Request.PostForm sampleRequest)
                        (http.Request.Trailer sampleRequest)
                        (http.Request.RemoteAddr sampleRequest)
                        (http.Request.RequestURI sampleRequest)
                        (http.Request.TLS sampleRequest))
            ∧ RequestResponse.RequestBody rr = body
            ∧ RequestResponse.RequestBodyError rr = bodyErr.
Proof.
  split; [reflexivity|]. split; [vm_compute; reflexivity|].
  apply (request_snapshot_roundtrip SampleURL.String SampleURL.Parse true
           sampleRequest sampleURL sampleURL).
  - reflexivity.
  - vm_compute. reflexivity.
Defined.

(** The sample request, snapshot and reconstruction. *)
Lemma sample_request_reconstructed :
  ∃ (r : gobRequest.t) (rr : RequestResponse.t),
    newGobRequest SampleURL.String true (Some sampleRequest) = Ret (Some r)
    ∧ RequestResponse SampleURL.Parse true
        (gobQuery.mk (Some r) None (gobError.mk None)) = Ret rr
    ∧ RequestResponse.RequestBody rr = [].
Proof.
  eexists. eexists. split; [reflexivity|].
  split; [vm_compute; reflexivity|]. reflexivity.
Qed.

(** C7, as stated, fails on the body: the live request carries the body
    [hi], the snapshot built from it carries none, and the reconstructed
    result has empty body bytes. *)
Lemma request_body_not_captured :
  ∃ (r : gobRequest.t) (rr : RequestResponse.t),
    newGobRequest SampleURL.String true (Some sampleRequest) = Ret (Some r)
    ∧ RequestResponse SampleURL.Parse true
        (gobQuery.mk (Some r) None (gobError.mk None)) = Ret rr
    ∧ http.content <$> http.Request.Body sampleRequest = Some [x68; x69]
    ∧ RequestResponse.RequestBody rr = []
    ∧ Some (RequestResponse.RequestBody rr)
      ≠ http.content <$> http.Request.Body sampleRequest.
Proof.
  destruct sample_request_reconstructed as (r & rr & H1 & H2 & H3).
  exists r, rr. split_and!; try assumption; try reflexivity.
  rewrite H3. discriminate.
Qed.

(* ===================================================================== *)
(** ** Registration                                                       *)
(* ===================================================================== *)

Lemma run_bind {A B : Type} (G : Serializer) (p : Prog A) (f : A → Prog B)
    (reg : Gob.Registry) :
  run G (bind p f) reg
  = match run G p reg with
    | Returned (a, reg') => run G (f a) reg'
    | Panicked x => Panicked x
    end.
Proof.
  revert reg. induction p as [a|x|v k IH|raw k IH|data k IH]; intros reg;
    simpl; try reflexivity.
  - destruct (Gob.Register v reg); [apply IH|reflexivity].
  - destruct (Encode G reg raw). apply IH.
  - destruct (Decode G reg data). apply IH.
Qed.

(** When [gob.Register] returns, the value is registered. *)
Lemma Register_returns (v : Value) (reg reg' : Gob.Registry) :
  Gob.Register v reg = Returned reg' → Gob.Registered reg' v.
Proof.
  unfold Gob.Register, Gob.RegisterName, Gob.Registered.
  case_bool_decide as Hname; [discriminate|].
  destruct (Gob.nameToConcreteType reg !! Gob.registeredName (typeOf v))
    as [t|] eqn:Hn.
  - cbn [andb]. case_bool_decide as Ht; [discriminate|]. subst t.
    destruct (Gob.concreteTypeToName reg !! Gob.userBase (typeOf v))
      as [n|] eqn:Hc.
    + case_bool_decide as Hn'; [discriminate|]. subst n. intros [= <-]. cbn. auto.
    + intros [= <-]. cbn. rewrite lookup_insert_eq. auto.
  - cbn [andb].
    destruct (Gob.concreteTypeToName reg !! Gob.userBase (typeOf v))
      as [n|] eqn:Hc.
    + case_bool_decide as Hn'; [discriminate|]. subst n. intros [= <-]. cbn. rewrite lookup_insert_eq. auto.
    + intros [= <-]. cbn. rewrite !lookup_insert_eq. auto.
Qed.

(** Registering a registered value changes nothing. *)
Lemma Register_registered (v : Value) (reg : Gob.Registry) :
  Gob.Registered reg v → Gob.Register v reg = Returned reg.
Proof.
  intros (Hn & Hc & Hname).
  unfold Gob.Register, Gob.RegisterName.
  rewrite bool_decide_eq_false_2 by exact Hname.
  rewrite Hn. cbn [andb].
  rewrite bool_decide_eq_false_2 by (intros H; apply H; reflexivity).
  rewrite Hc.
  rewrite bool_decide_eq_false_2 by (intros H; apply H; reflexivity).
  destruct reg. reflexivity.
Qed.

(** A registration that returns keeps what was registered before. *)
Lemma Register_keeps (v w : Value) (reg reg' : Gob.Registry) :
  Gob.Register w reg = Returned reg' →
  Gob.Registered reg v → Gob.Registered reg' v.
Proof.
  intros Hw (Hn & Hc & Hname).
  unfold Gob.Register, Gob.RegisterName in Hw.
  case_bool_decide as Hwname; [discriminate|].
  assert (Hn2t : ∀ m : gmap string GoType,
             (m = Gob.nameToConcreteType reg
              ∨ (Gob.nameToConcreteType reg
                   !! Gob.registeredName (typeOf w) = None
                 ∧ m = <[Gob.registeredName (typeOf w) := typeOf w]>
                         (Gob.nameToConcreteType reg))) →
             m !! Gob.registeredName (typeOf v) = Some (typeOf v)).
  { intros m [->|[Hfresh ->]]; [exact Hn|].
    rewrite lookup_insert_ne; [exact Hn|]. intros Heq.
    rewrite Heq in Hfresh. congruence. }
  assert (Hc2n : ∀ m : gmap GoType string,
             (m = Gob.concreteTypeToName reg
              ∨ (Gob.concreteTypeToName reg
                   !! Gob.userBase (typeOf w) = None
                 ∧ m = <[Gob.userBase (typeOf w)
                         := Gob.registeredName (typeOf w)]>
                         (Gob.concreteTypeToName reg))) →
             m !! Gob.userBase (typeOf v)
             = Some (Gob.registeredName (typeOf v))).
  { intros m [->|[Hfresh ->]]; [exact Hc|].
    rewrite lookup_insert_ne; [exact Hc|]. intros Heq.
    rewrite Heq in Hfresh. congruence. }
  unfold Gob.Registered.
  destruct (Gob.nameToConcreteType reg !! Gob.registeredName (typeOf w))
    as [t|] eqn:Hwn; cbn [andb] in Hw.
  - case_bool_decide; [discriminate|].
    destruct (Gob.concreteTypeToName reg !! Gob.userBase (typeOf w))
      as [n|] eqn:Hwc.
    + case_bool_decide; [discriminate|]. injection Hw as <-. cbn.
      split_and!; [apply Hn2t; auto|apply Hc2n; auto|exact Hname].
    + injection Hw as <-. cbn.
      split_and!; [apply Hn2t; auto|apply Hc2n; auto|exact Hname].
  - destruct (Gob.concreteTypeToName reg !! Gob.userBase (typeOf w))
      as [n|] eqn:Hwc.
    + case_bool_decide; [discriminate|]. injection Hw as <-. cbn.
      split_and!; [apply Hn2t; auto|apply Hc2n; auto|exact Hname].
    + injection Hw as <-. cbn.
      split_and!; [apply Hn2t; auto|apply Hc2n; auto|exact Hname].
Qed.

Lemma registerIfError_cases (v : Value) :
  registerIfError v = Ret tt
  ∨ ∃ x, registerIfError v = CallRegister x (Ret tt).
Proof.
  unfold registerIfError. destruct (asInterface v) as [x|]; [|auto].
  destruct (implementsError (typeOf x)); eauto.
Qed.

(** The walk of [registerErrorType] keeps what was registered, and runs
    to the same value, changing nothing, in any registry that holds what
    the first run left. *)
Lemma registerWalk_again (G : Serializer) (v : Value) :
  ∀ (reg reg' : Gob.Registry) (r : rValue),
    run G (registerWalk v) reg = Returned (r, reg') →
    (∀ w, Gob.Registered reg w → Gob.Registered reg' w)
    ∧ ∀ reg'', (∀ w, Gob.Registered reg' w → Gob.Registered reg'' w) →
               run G (registerWalk v) reg'' = Returned (r, reg'').
Proof.
  assert (Hstep : ∀ (u : Value) (k : Prog rValue),
            (∀ (reg reg' : Gob.Registry) (r : rValue),
               run G k reg = Returned (r, reg') →
               (∀ w, Gob.Registered reg w → Gob.Registered reg' w)
               ∧ ∀ reg'', (∀ w, Gob.Registered reg' w → Gob.Registered reg'' w) →
                          run G k reg'' = Returned (r, reg'')) →
            ∀ (reg reg' : Gob.Registry) (r : rValue),
              run G (bind (registerIfError u) (λ _, k)) reg = Returned (r, reg') →
              (∀ w, Gob.Registered reg w → Gob.Registered reg' w)
              ∧ ∀ reg'', (∀ w, Gob.Registered reg' w → Gob.Registered reg'' w) →
                         run G (bind (registerIfError u) (λ _, k)) reg''
                         = Returned (r, reg'')).
  { intros u k IH reg reg' r.
    destruct (registerIfError_cases u) as [->|[x ->]]; cbn [bind run].
    - apply IH.
    - destruct (Gob.Register x reg) as [reg1|p] eqn:Hx; [|discriminate].
      intros Hk. destruct (IH reg1 reg' r Hk) as [Hkeep Hagain]. split.
      + intros w Hw. apply Hkeep. exact (Register_keeps w x reg reg1 Hx Hw).
      + intros reg'' Hsub.
        rewrite (Register_registered x reg'').
        * apply Hagain. exact Hsub.
        * apply Hsub, Hkeep. exact (Register_returns x reg reg1 Hx). }
  assert (Hret : ∀ (o : rValue) (reg reg' : Gob.Registry) (r : rValue),
            run G (Ret o) reg = Returned (r, reg') →
            (∀ w, Gob.Registered reg w → Gob.Registered reg' w)
            ∧ ∀ reg'', (∀ w, Gob.Registered reg' w → Gob.Registered reg'' w) →
                       run G (Ret o) reg'' = Returned (r, reg'')).
  { intros o reg reg' r [= <- <-]. split; [auto|reflexivity]. }
  induction v as [T d|v IH|t|ity v IH|ity]; cbn [registerWalk].
  - apply Hret.
  - apply Hstep. exact IH.
  - apply Hstep. apply Hret.
  - apply Hstep. exact IH.
  - apply Hstep. apply Hret.
Qed.

(** X1.  [registerErrorType] is idempotent: when a registration
    returns, registering the same sample again, in the state the first
    call left, returns and leaves [encodableTypes] and gob's registry as
    they are. *)
Theorem registerErrorType_idempotent (G : Serializer)
    (encodableTypes encodableTypes' : gmap string bool)
    (reg reg' : Gob.Registry) (err : error) :
  run G (registerErrorType encodableTypes err) reg
  = Returned (encodableTypes', reg') →
  run G (registerErrorType encodableTypes' err) reg'
  = Returned (encodableTypes', reg').
Proof.
  unfold registerErrorType. rewrite !run_bind.
  destruct err as [v|]; cbn [ValueOf].
  - destruct (run G (registerWalk v) reg) as [[r reg1]|p] eqn:Hwalk;
      [|discriminate].
    destruct (registerWalk_again G v reg reg1 r Hwalk) as [_ Hagain].
    destruct r as [leaf|]; cbn [reflect_Type bind run]; [|discriminate].
    intros [= <- <-].
    rewrite (Hagain reg1) by auto. cbn [reflect_Type bind run].
    rewrite insert_insert_eq. reflexivity.
  - cbn [run reflect_Type bind]. discriminate.
Qed.

Lemma registerErrorType_idempotent_witness :
  ∃ (encodableTypes' : gmap string bool) (reg' : Gob.Registry),
    run nullSerializer
        (registerErrorType ∅ (Some (new_struct net_DNSError))) Gob.empty
    = Returned (encodableTypes', reg')
    ∧ run nullSerializer
          (registerErrorType encodableTypes' (Some (new_struct net_DNSError)))
          reg'
      = Returned (encodableTypes', reg').
Proof.
  eexists. eexists.
  assert (H : run nullSerializer
                  (registerErrorType ∅ (Some (new_struct net_DNSError)))
                  Gob.empty
              = Returned
                  (<[typeId (Defined net_DNSError) := true]> ∅,
                   Gob.mkRegistry
                     (<[Gob.registeredName (PtrTo (Defined net_DNSError))
                        := PtrTo (Defined net_DNSError)]> ∅)
                     (<[Defined net_DNSError
                        := Gob.registeredName (PtrTo (Defined net_DNSError))]> ∅))).
  { reflexivity. }
  split; [exact H|].
  exact (registerErrorType_idempotent nullSerializer _ _ _ _ _ H).
Defined.

(** X2.  [registerErrorType] panics on a nil error and on a nil pointer
    of any type, with any serializer and registry: the walk ends on the
    zero Value and [Type] panics, so the call never returns an updated
    [encodableTypes]. *)
Theorem registerErrorType_nil_panics (G : Serializer)
    (encodableTypes : gmap string bool) (reg : Gob.Registry) :
  registerErrorType encodableTypes None
  = Panic (ReflectValueError "reflect.Value.Type" KInvalid)
  ∧ ∀ t : GoType,
      ∃ p, run G (registerErrorType encodableTypes (Some (VNil t))) reg
           = Panicked p.
Proof.
  split; [reflexivity|]. intros t.
  unfold registerErrorType. cbn [ValueOf registerWalk].
  destruct (registerIfError_cases (VNil t)) as [->|[x ->]]; cbn [bind run].
  - eauto.
  - destruct (Gob.Register x reg); cbn [bind run]; eauto.
Qed.

(** X3.  A sample that is a plain value, not a pointer, is never handed
    to [gob.Register]: [registerErrorType] only records its identifier.
    [GobEncode] then takes the type as encodable and hands an error of
    that type to the encoder as it is, not as a [gobSafeError]. *)
Theorem registerErrorType_value_sample (foreign : Named → Data → string)
    (encodableTypes : gmap string bool) (T : Named) (sample d : Data) :
  registerErrorType encodableTypes (Some (VData T sample))
  = Ret (<[typeId (Defined T) := true]> encodableTypes)
  ∧ (∀ (G : Serializer) (reg : Gob.Registry),
       run G (registerErrorType encodableTypes (Some (VData T sample))) reg
       = Returned (<[typeId (Defined T) := true]> encodableTypes, reg))
  ∧ GobEncode foreign (<[typeId (Defined T) := true]> encodableTypes)
      (gobError.mk (Some (VData T d)))
    = CallEncode
        (gobRawError.mk (Some (VData T d))
           (bool_decide (typeId (Defined T) = "errors.errorString")))
        (λ bytes err, Ret (bytes, err)).
Proof.
  split_and!; try reflexivity.
  unfold GobEncode. cbn [gobError.Error indirectOf ValueOf indirect].
  cbn [reflect_Type bind typeOf].
  change (typePkgPath (Defined T) +:+ "." +:+ typeName (Defined T))
    with (typeId (Defined T)).
  rewrite lookup_insert_eq. reflexivity.
Qed.

(* ===================================================================== *)
(** ** The codec on any state                                             *)
(* ===================================================================== *)

(** The envelope [GobEncode] hands to the encoder, on any state. *)
Lemma GobEncode_sends (foreign : Named → Data → string)
    (encodableTypes : gmap string bool) (e : Value) (T : Named) (d : Data) :
  indirect e = Some (VData T d) →
  let rawError :=
    gobRawError.mk
      (Some (match encodableTypes !! typeId (Defined T) with
             | Some _ => e
             | None => gobSafeError (Error_method foreign T d)
             end))
      (bool_decide (typeId (Defined T) = "errors.errorString")) in
  GobEncode foreign encodableTypes (gobError.mk (Some e))
  = CallEncode rawError (λ bytes err, Ret (bytes, err))
  ∧ ∀ (G : Serializer) (reg : Gob.Registry),
      run G (GobEncode foreign encodableTypes (gobError.mk (Some e))) reg
      = Returned (Encode G reg rawError, reg).
Proof.
  intros Hwalk rawError.
  assert (H : GobEncode foreign encodableTypes (gobError.mk (Some e))
              = CallEncode rawError (λ bytes err, Ret (bytes, err))).
  { destruct (indirect_spec foreign e _ Hwalk) as (T' & d' & Heq & Hcall).
    injection Heq as <- <-.
    unfold GobEncode. cbn [gobError.Error indirectOf ValueOf].
    rewrite Hwalk. cbn [reflect_Type bind typeOf].
    change (typePkgPath (Defined T) +:+ "." +:+ typeName (Defined T))
      with (typeId (Defined T)).
    subst rawError.
    destruct (encodableTypes !! typeId (Defined T)); [reflexivity|].
    rewrite Hcall. reflexivity. }
  split; [exact H|]. intros G reg. rewrite H. cbn [run].
  destruct (Encode G reg rawError). reflexivity.
Qed.

(** X4.  [GobEncode] on any [encodableTypes] and any error whose walk
    reaches a value makes one call to the encoder.  The payload is the
    error itself when its identifier is in [encodableTypes] and the
    [gobSafeError] of its message otherwise (never nil, never a value of
    an unlisted type other than [gobSafeError]); the flag is set exactly
    for [errors.errorString]; and what the encoder returns, bytes and
    error, is returned as it is. *)
Theorem GobEncode_envelope (foreign : Named → Data → string)
    (encodableTypes : gmap string bool) (e : Value) (T : Named) (d : Data) :
  indirect e = Some (VData T d) →
  let rawError :=
    gobRawError.mk
      (Some (match encodableTypes !! typeId (Defined T) with
             | Some _ => e
             | None => gobSafeError (Error_method foreign T d)
             end))
      (bool_decide (typeId (Defined T) = "errors.errorString")) in
  GobEncode foreign encodableTypes (gobError.mk (Some e))
  = CallEncode rawError (λ bytes err, Ret (bytes, err))
  ∧ ∀ (G : Serializer) (reg : Gob.Registry),
      run G (GobEncode foreign encodableTypes (gobError.mk (Some e))) reg
      = Returned (Encode G reg rawError, reg).
Proof.
  intros Hwalk rawError.
  exact (GobEncode_sends foreign encodableTypes e T d Hwalk).
Qed.

Lemma GobEncode_envelope_witness :
  let rawError :=
    gobRawError.mk
      (Some (match encodableTypes0 !! typeId (Defined customErrorT) with
             | Some _ => customError "Unexpected"
             | None =>
                 gobSafeError
                   (Error_method sampleForeign customErrorT
                      (DString "Unexpected"))
             end))
      (bool_decide (typeId (Defined customErrorT) = "errors.errorString")) in
  GobEncode sampleForeign encodableTypes0
    (gobError.mk (Some (customError "Unexpected")))
  = CallEncode rawError (λ bytes err, Ret (bytes, err))
  ∧ ∀ (G : Serializer) (reg : Gob.Registry),
      run G (GobEncode sampleForeign encodableTypes0
               (gobError.mk (Some (customError "Unexpected")))) reg
      = Returned (Encode G reg rawError, reg).
Proof.
  apply (GobEncode_envelope sampleForeign encodableTypes0
           (customError "Unexpected") customErrorT (DString "Unexpected")).
  reflexivity.
Defined.

(** X5.  [GobDecode] on bytes the decoder accepts, whatever the payload
    the decoder hands back: with the flag clear the payload becomes the
    error as it is, even of a type that is not in [encodableTypes]; with
    the flag set the error is a fresh [errors.New] of the payload's
    message, whatever the type of the payload. *)
Theorem GobDecode_accepted (foreign : Named → Data → string)
    (G : Serializer) (reg : Gob.Registry) (g : gobError.t)
    (data : list byte) (payload : Value) (flag : bool) (T : Named) (d : Data) :
  data ≠ [] →
  Decode G reg data = (gobRawError.mk (Some payload) flag, None) →
  indirect payload = Some (VData T d) →
  run G (GobDecode foreign g data) reg
  = Returned
      ((gobError.mk
          (Some (if flag then errors_New (Error_method foreign T d)
                 else payload)), None), reg).
Proof.
  intros Hne Hdec Hwalk.
  destruct (indirect_spec foreign payload _ Hwalk) as (T' & d' & Heq & Hcall).
  injection Heq as <- <-.
  unfold GobDecode. destruct data as [|b data]; [done|].
  simpl bool_decide. cbn [run]. rewrite Hdec.
  cbn [gobRawError.ErrorsErrorString gobRawError.Error].
  destruct flag; [rewrite Hcall|]; reflexivity.
Qed.

Lemma GobDecode_accepted_witness :
  RefGob.write (Some ("*http.ProtocolError", DStruct [("ErrorString", "Expected")]),
                true) ≠ []
  ∧ run RefGob.serializer
        (GobDecode sampleForeign (gobError.mk None)
           (RefGob.write
              (Some ("*http.ProtocolError",
                     DStruct [("ErrorString", "Expected")]), true)))
        registry0
    = Returned ((gobError.mk (Some (errors_New "Expected")), None), registry0).
Proof.
  split; [discriminate|].
  apply (GobDecode_accepted sampleForeign RefGob.serializer registry0
           (gobError.mk None) _ (protocolError "Expected") true
           http_ProtocolError (DStruct [("ErrorString", "Expected")])).
  - discriminate.
  - cbn [Decode RefGob.serializer]. unfold RefGob.refDecode.
    rewrite read_write. reflexivity.
  - reflexivity.
Defined.

(** X6.  Non-empty bytes that the decoder accepts as an envelope with a
    nil payload: with the flag clear [GobDecode] returns the absent
    error without an error; with the flag set it panics, on the call of
    [Error] through the nil interface. *)
Theorem GobDecode_nil_payload (foreign : Named → Data → string)
    (G : Serializer) (reg : Gob.Registry) (g : gobError.t)
    (data : list byte) (flag : bool) :
  data ≠ [] →
  Decode G reg data = (gobRawError.mk None flag, None) →
  run G (GobDecode foreign g data) reg
  = if flag then Panicked NilDereference
    else Returned ((gobError.mk None, None), reg).
Proof.
  intros Hne Hdec. unfold GobDecode.
  destruct data as [|b data]; [done|].
  simpl bool_decide. cbn [run]. rewrite Hdec.
  destruct flag; reflexivity.
Qed.

Lemma GobDecode_nil_payload_witness :
  RefGob.write (None, true) ≠ []
  ∧ Decode RefGob.serializer registry0 (RefGob.write (None, true))
    = (gobRawError.mk None true, None)
  ∧ run RefGob.serializer
        (GobDecode sampleForeign (gobError.mk None) (RefGob.write (None, true)))
        registry0
    = Panicked NilDereference.
Proof.
  assert (Hdec : Decode RefGob.serializer registry0 (RefGob.write (None, true))
                 = (gobRawError.mk None true, None)).
  { cbn [Decode RefGob.serializer]. unfold RefGob.refDecode.
    rewrite read_write. reflexivity. }
  split; [discriminate|]. split; [exact Hdec|].
  apply (GobDecode_nil_payload sampleForeign RefGob.serializer registry0
           (gobError.mk None) (RefGob.write (None, true)) true).
  - discriminate.
  - exact Hdec.
Defined.

(** X7.  Registration makes a type round-trip.  When
    [registerErrorType(new(T))] returns, for a type [T] with an [Error]
    method that is not [errors.errorString], then in the state it leaves
    every error that is a [T] value or a non-nil pointer to one, and
    whose state gob carries in that state, is encoded without error and
    decoded to the pointer to the [T] value with the state as gob
    delivers it, with any serializer that keeps the contract. *)
Theorem registered_sample_roundtrip (foreign : Named → Data → string)
    (G : Serializer) (encodableTypes encodableTypes' : gmap string bool)
    (reg reg' : Gob.Registry) (T : Named) (zero d d' : Data) (e : Value)
    (g : gobError.t) :
  transmits G →
  ErrorRecv T ≠ NoErrorMethod →
  typeId (Defined T) ≠ "errors.errorString" →
  run G (registerErrorType encodableTypes (Some (VPtr (VData T zero)))) reg
  = Returned (encodableTypes', reg') →
  Gob.indir e = Some (VData T d) →
  Gob.carriedData reg' d = Some d' →
  ∃ data : list byte,
    run G (GobEncode foreign encodableTypes' (gobError.mk (Some e))) reg'
    = Returned ((data, None), reg')
    ∧ run G (GobDecode foreign g data) reg'
      = Returned ((gobError.mk (Some (VPtr (VData T d'))), None), reg').
Proof.
  intros HG Hrecv Hid Hreg He.
  unfold registerErrorType in Hreg.
  cbn [ValueOf registerWalk] in Hreg.
  unfold registerIfError in Hreg.
  cbn [asInterface typeOf implementsError] in Hreg.
  rewrite bool_decide_eq_true_2 in Hreg by exact Hrecv.
  cbn [bind run] in Hreg.
  destruct (Gob.Register (VPtr (VData T zero)) reg) as [reg1|p] eqn:HR;
    [|discriminate].
  cbn [run reflect_Type typeOf] in Hreg. injection Hreg as <- <-.
  intros Hd.
  destruct (Register_returns _ _ _ HR) as (Hn & Hc & _).
  cbn [typeOf] in Hn, Hc.
  destruct (indir_spec foreign e T d He) as (_ & Hwalk & _).
  assert (Hcarried : Gob.carried reg1 e = Some (VPtr (VData T d'))).
  { rewrite (carried_indir reg1 e T d He). cbn [Gob.carried].
    unfold Gob.wireType, Gob.userBase. cbn [typeOf Gob.baseNamed].
    unfold Gob.userBase in Hc. cbn [Gob.baseNamed] in Hc.
    rewrite Hc. cbn. rewrite Hn.
    rewrite decide_True by reflexivity. rewrite Hd. reflexivity. }
  destruct (HG reg1 (gobRawError.mk (Some e) false) e _ eq_refl Hcarried)
    as (data & Henc & Hne & Hdec).
  exists data. split.
  - destruct (GobEncode_sends foreign
                (<[typeId (Defined T) := true]> encodableTypes) e T d Hwalk)
      as [_ Hrun].
    rewrite Hrun, lookup_insert_eq.
    rewrite bool_decide_eq_false_2 by exact Hid.
    rewrite Henc. reflexivity.
  - cbn [gobRawError.ErrorsErrorString] in Hdec.
    apply (GobDecode_accepts foreign G reg1 g data _ false T d' Hne Hdec).
    reflexivity.
Qed.

Lemma registered_sample_roundtrip_witness :
  ∃ data : list byte,
    run RefGob.serializer
        (GobEncode sampleForeign
           (<[typeId (Defined customErrorT) := true]> ∅)
           (gobError.mk (Some (customError "Unexpected"))))
        (Gob.mkRegistry
           (<[Gob.registeredName (PtrTo (Defined customErrorT))
              := PtrTo (Defined customErrorT)]> ∅)
           (<[Defined customErrorT
              := Gob.registeredName (PtrTo (Defined customErrorT))]> ∅))
    = Returned ((data, None),
                Gob.mkRegistry
                  (<[Gob.registeredName (PtrTo (Defined customErrorT))
                     := PtrTo (Defined customErrorT)]> ∅)
                  (<[Defined customErrorT
                     := Gob.registeredName (PtrTo (Defined customErrorT))]> ∅))
    ∧ run RefGob.serializer (GobDecode sampleForeign (gobError.mk None) data)
          (Gob.mkRegistry
             (<[Gob.registeredName (PtrTo (Defined customErrorT))
                := PtrTo (Defined customErrorT)]> ∅)
             (<[Defined customErrorT
                := Gob.registeredName (PtrTo (Defined customErrorT))]> ∅))
      = Returned
          ((gobError.mk (Some (VPtr (customError "Unexpected"))), None),
           Gob.mkRegistry
             (<[Gob.registeredName (PtrTo (Defined customErrorT))
                := PtrTo (Defined customErrorT)]> ∅)
             (<[Defined customErrorT
                := Gob.registeredName (PtrTo (Defined customErrorT))]> ∅)).
Proof.
  apply (registered_sample_roundtrip sampleForeign RefGob.serializer ∅ _
           Gob.empty _ customErrorT (DString "") (DString "Unexpected")
           (DString "Unexpected") (customError "Unexpected")
           (gobError.mk None)).
  - exact RefGob_transmits.
  - discriminate.
  - vm_compute. discriminate.
  - reflexivity.
  - reflexivity.
  - reflexivity.
Defined.

(** X8.  Registration never takes a type back: after a registration
    that returns, every identifier that was in [encodableTypes] still
    is, so an error that was sent as itself is sent as itself, with the
    same envelope. *)
Theorem registerErrorType_monotone (foreign : Named → Data → string)
    (G : Serializer) (encodableTypes encodableTypes' : gmap string bool)
    (reg reg' : Gob.Registry) (err : error) (e : Value) (T : Named)
    (d : Data) :
  run G (registerErrorType encodableTypes err) reg
  = Returned (encodableTypes', reg') →
  indirect e = Some (VData T d) →
  is_Some (encodableTypes !! typeId (Defined T)) →
  is_Some (encodableTypes' !! typeId (Defined T))
  ∧ (∀ w, Gob.Registered reg w → Gob.Registered reg' w)
  ∧ GobEncode foreign encodableTypes' (gobError.mk (Some e))
    = GobEncode foreign encodableTypes (gobError.mk (Some e)).
Proof.
  intros Hreg Hwalk [b Hb].
  unfold registerErrorType in Hreg. rewrite !run_bind in Hreg.
  assert (Hkeep : ∃ id, encodableTypes' = <[id := true]> encodableTypes
                        ∧ ∀ w, Gob.Registered reg w → Gob.Registered reg' w).
  { destruct err as [v|]; cbn [ValueOf] in Hreg.
    - destruct (run G (registerWalk v) reg) as [[r reg1]|p] eqn:Hw;
        [|discriminate].
      destruct (registerWalk_again G v reg reg1 r Hw) as [Hk _].
      destruct r as [leaf|]; cbn [reflect_Type bind run] in Hreg;
        [|discriminate].
      injection Hreg as <- <-. eauto.
    - cbn [run reflect_Type bind] in Hreg. discriminate. }
  destruct Hkeep as (id & -> & Hk).
  assert (Hsome : is_Some (<[id := true]> encodableTypes !! typeId (Defined T))).
  { destruct (decide (id = typeId (Defined T))) as [->|Hne].
    - rewrite lookup_insert_eq. eauto.
    - rewrite lookup_insert_ne by exact Hne. eauto. }
  split_and!; [exact Hsome|exact Hk|].
  destruct (GobEncode_sends foreign (<[id := true]> encodableTypes) e T d
              Hwalk) as [-> _].
  destruct (GobEncode_sends foreign encodableTypes e T d Hwalk) as [-> _].
  destruct Hsome as [b' ->]. rewrite Hb. reflexivity.
Qed.

Lemma registerErrorType_monotone_witness :
  is_Some (<[typeId (Defined net_DNSError) := true]>
             (<[typeId (Defined http_ProtocolError) := true]> (∅ : gmap string bool))
           !! typeId (Defined http_ProtocolError))
  ∧ (∀ w, Gob.Registered Gob.empty w →
          Gob.Registered
            (Gob.mkRegistry
               (<[Gob.registeredName (PtrTo (Defined net_DNSError))
                  := PtrTo (Defined net_DNSError)]> ∅)
               (<[Defined net_DNSError
                  := Gob.registeredName (PtrTo (Defined net_DNSError))]> ∅)) w)
  ∧ GobEncode sampleForeign
      (<[typeId (Defined net_DNSError) := true]>
         (<[typeId (Defined http_ProtocolError) := true]> (∅ : gmap string bool)))
      (gobError.mk (Some (protocolError "Expected")))
    = GobEncode sampleForeign
        (<[typeId (Defined http_ProtocolError) := true]> (∅ : gmap string bool))
        (gobError.mk (Some (protocolError "Expected"))).
Proof.
  apply (registerErrorType_monotone sampleForeign nullSerializer
           (<[typeId (Defined http_ProtocolError) := true]> (∅ : gmap string bool)) _
           Gob.empty _ (Some (new_struct net_DNSError))
           (protocolError "Expected") http_ProtocolError
           (DStruct [("ErrorString", "Expected")])).
  - reflexivity.
  - reflexivity.
  - rewrite lookup_insert_eq. eauto.
Defined.

Lemma Error_method_gobSafeError (foreign : Named → Data → string) (s : string) :
  Error_method foreign gobSafeErrorT (DString s) = s.
Proof. unfold Error_method. rewrite decide_True by reflexivity. reflexivity. Qed.

Lemma Error_method_errorString (foreign : Named → Data → string) (s : string) :
  Error_method foreign errorStringT (DStruct [("s", s)]) = s.
Proof. unfold Error_method. rewrite decide_True by reflexivity. reflexivity. Qed.

(** gob delivers what it carried once more unchanged: allocation at the
    registered type and the zeroing of unexported fields are done. *)
Lemma carriedFields_again (fields : list (string * string)) :
  Gob.carriedFields (Gob.carriedFields fields) = Gob.carriedFields fields.
Proof.
  unfold Gob.carriedFields. rewrite <- list_fmap_compose.
  apply list_fmap_ext. intros i [n s] _. cbn.
  destruct (Gob.isExported n); reflexivity.
Qed.

Lemma carriedFields_names (fields : list (string * string)) :
  (Gob.carriedFields fields).*1 = fields.*1.
Proof.
  unfold Gob.carriedFields. rewrite <- list_fmap_compose.
  apply list_fmap_ext. intros i [n s] _. reflexivity.
Qed.

Lemma carried_alloc (reg : Gob.Registry) (typ : GoType) (leaf : Value) :
  Gob.carried reg (Gob.alloc typ leaf) = Gob.carried reg leaf.
Proof. induction typ as [n|t IH]; [reflexivity|exact IH]. Qed.

Lemma carried_again (reg : Gob.Registry) :
  (∀ v v', Gob.carried reg v = Some v' → Gob.carried reg v' = Some v')
  ∧ (∀ d d', Gob.carriedData reg d = Some d' →
             Gob.carriedData reg d' = Some d')
  ∧ (∀ ifs ifs', Gob.carriedIfaces reg ifs = Some ifs' →
                 Gob.carriedIfaces reg ifs' = Some ifs'
                 ∧ Gob.ifaceNames ifs' = Gob.ifaceNames ifs).
Proof.
  apply Value_Data_Ifaces_ind.
  - intros T d IH v'. cbn [Gob.carried].
    destruct (Gob.wireType reg (VData T d)) as [typ|] eqn:Hw; [|discriminate].
    case_decide as Hb; [|discriminate].
    destruct (Gob.carriedData reg d) as [d'|] eqn:Hd; [|discriminate].
    intros [= <-]. rewrite carried_alloc. cbn [Gob.carried].
    rewrite (wireType_base reg (VData T d') d). cbn [typeOf Gob.baseNamed].
    rewrite Hw. rewrite decide_True by exact Hb.
    rewrite (IH d' eq_refl). reflexivity.
  - intros v IH v'. cbn [Gob.carried]. apply IH.
  - intros t v'. discriminate.
  - intros ity v _ v'. discriminate.
  - intros ity v'. discriminate.
  - intros s d' [= <-]. reflexivity.
  - intros fields d'. cbn [Gob.carriedData].
    destruct (Gob.anyExported fields.*1) eqn:Hx; [|discriminate].
    intros [= <-]. cbn [Gob.carriedData].
    rewrite carriedFields_names, Hx, carriedFields_again. reflexivity.
  - intros fields ifs IH d'. cbn [Gob.carriedData].
    destruct (Gob.anyExported (fields.*1 ++ Gob.ifaceNames ifs)) eqn:Hx;
      [|discriminate].
    destruct (Gob.carriedIfaces reg ifs) as [ifs'|] eqn:Hi; [|discriminate].
    intros [= <-]. destruct (IH ifs' eq_refl) as [Hagain Hnames].
    cbn [Gob.carriedData].
    rewrite carriedFields_names, Hnames, Hx, carriedFields_again, Hagain.
    reflexivity.
  - intros ifs' [= <-]. split; reflexivity.
  - intros n v IHv rest IHr ifs'. cbn [Gob.carriedIfaces].
    destruct (Gob.isExported n) eqn:Hn.
    + destruct (Gob.carried reg v) as [v'|] eqn:Hv; [|discriminate].
      destruct (Gob.carriedIfaces reg rest) as [rest'|] eqn:Hr; [|discriminate].
      intros [= <-]. destruct (IHr rest' eq_refl) as [Hagain Hnames].
      cbn [Gob.carriedIfaces Gob.ifaceNames].
      rewrite Hn, (IHv v' eq_refl), Hagain, Hnames. split; reflexivity.
    + destruct (Gob.carriedIfaces reg rest) as [rest'|] eqn:Hr; [|discriminate].
      intros [= <-]. destruct (IHr rest' eq_refl) as [Hagain Hnames].
      cbn [Gob.carriedIfaces Gob.ifaceNames].
      rewrite Hagain, Hnames. split; reflexivity.
  - intros n rest IHr ifs'. cbn [Gob.carriedIfaces].
    destruct (Gob.carriedIfaces reg rest) as [rest'|] eqn:Hr; [|discriminate].
    intros [= <-]. destruct (IHr rest' eq_refl) as [Hagain Hnames].
    cbn [Gob.carriedIfaces Gob.ifaceNames].
    rewrite Hagain, Hnames. split; reflexivity.
Qed.

(** What a round trip through the state of [init] gives, case by case. *)
Lemma roundtrip_result (foreign : Named → Data → string) (G : Serializer)
    (g : gobError.t) (e : Value) (T : Named) (d d' : Data) :
  transmits G →
  Gob.indir e = Some (VData T d) →
  T ∈ registeredErrorTypes ∧ Gob.carriedData registry0 d = Some d'
  ∨ encodableTypes0 !! typeId (Defined T) = None →
  ∃ (data : list byte) (e' : Value),
    run G (GobEncode foreign encodableTypes0 (gobError.mk (Some e))) registry0
    = Returned ((data, None), registry0)
    ∧ run G (GobDecode foreign g data) registry0
      = Returned ((gobError.mk (Some e'), None), registry0)
    ∧ (e' = VPtr (VData T d') ∧ T ∈ registeredErrorTypes
       ∧ Gob.carriedData registry0 d = Some d'
       ∨ e' = VPtr (gobSafeError (Error_method foreign T d))
       ∨ e' = errors_New (Error_method foreign T d)).
Proof.
  intros HG He [[HT Hd]|Het].
  - destruct (registered_roundtrip_general foreign G HG g e T d d' HT He Hd)
      as (data & Henc & Hdec).
    exists data, (VPtr (VData T d')).
    split; [exact Henc|]. split; [exact Hdec|]. left. auto.
  - destruct (indir_spec foreign e T d He) as (_ & Hwalk & _).
    destruct (unregistered_roundtrip_general foreign G HG g e T d Hwalk Het)
      as (data & Henc & Hdec).
    exists data. eexists. split; [exact Henc|]. split; [exact Hdec|].
    case_bool_decide; auto.
Qed.

(** X9.  The message survives.  In the state of [init], for every error
    that is, or points to, a value of a registered type whose state gob
    delivers unchanged, or a value of a type whose identifier is not in
    [encodableTypes], encoding and decoding succeed and the decoded error
    has the message of the original. *)
Theorem roundtrip_keeps_message (foreign : Named → Data → string)
    (G : Serializer) (g : gobError.t) (e : Value) (T : Named) (d : Data) :
  transmits G →
  Gob.indir e = Some (VData T d) →
  T ∈ registeredErrorTypes ∧ Gob.carriedData registry0 d = Some d
  ∨ encodableTypes0 !! typeId (Defined T) = None →
  ∃ (data : list byte) (e' : Value),
    run G (GobEncode foreign encodableTypes0 (gobError.mk (Some e))) registry0
    = Returned ((data, None), registry0)
    ∧ run G (GobDecode foreign g data) registry0
      = Returned ((gobError.mk (Some e'), None), registry0)
    ∧ callError foreign e' = callError foreign e.
Proof.
  intros HG He Hcase.
  destruct (roundtrip_result foreign G g e T d d HG He Hcase)
    as (data & e' & Henc & Hdec & He').
  destruct (indir_spec foreign e T d He) as (_ & _ & Hcall).
  exists data, e'. split; [exact Henc|]. split; [exact Hdec|].
  rewrite Hcall.
  destruct He' as [(-> & _ & _)|[->| ->]];
    cbn [callError gobSafeError errors_New].
  - reflexivity.
  - rewrite Error_method_gobSafeError. reflexivity.
  - rewrite Error_method_errorString. reflexivity.
Qed.

Lemma roundtrip_keeps_message_witness :
  ∃ (data : list byte) (e' : Value),
    run RefGob.serializer
        (GobEncode sampleForeign encodableTypes0
           (gobError.mk (Some (protocolError "Expected")))) registry0
    = Returned ((data, None), registry0)
    ∧ run RefGob.serializer (GobDecode sampleForeign (gobError.mk None) data)
          registry0
      = Returned ((gobError.mk (Some e'), None), registry0)
    ∧ callError sampleForeign e'
      = callError sampleForeign (protocolError "Expected").
Proof.
  apply (roundtrip_keeps_message sampleForeign RefGob.serializer
           (gobError.mk None) (protocolError "Expected") http_ProtocolError
           (DStruct [("ErrorString", "Expected")])).
  - exact RefGob_transmits.
  - reflexivity.
  - left. split; [unfold registeredErrorTypes; right; left|reflexivity].
Defined.

(** X10.  A decoded error is a fixed point of the codec.  In the state
    of [init], for every error that is, or points to, a value of a
    registered type whose state gob carries, or a value of a type whose
    identifier is not in [encodableTypes], what decoding gives back is
    encoded and decoded to itself: recording a replayed error changes
    nothing more. *)
Theorem roundtrip_stabilizes (foreign : Named → Data → string)
    (G : Serializer) (g : gobError.t) (e : Value) (T : Named) (d d' : Data) :
  transmits G →
  Gob.indir e = Some (VData T d) →
  T ∈ registeredErrorTypes ∧ Gob.carriedData registry0 d = Some d'
  ∨ encodableTypes0 !! typeId (Defined T) = None →
  ∃ (data data' : list byte) (e' : Value),
    run G (GobEncode foreign encodableTypes0 (gobError.mk (Some e))) registry0
    = Returned ((data, None), registry0)
    ∧ run G (GobDecode foreign g data) registry0
      = Returned ((gobError.mk (Some e'), None), registry0)
    ∧ run G (GobEncode foreign encodableTypes0 (gobError.mk (Some e'))) registry0
      = Returned ((data', None), registry0)
    ∧ run G (GobDecode foreign g data') registry0
      = Returned ((gobError.mk (Some e'), None), registry0).
Proof.
  intros HG He Hcase.
  destruct (roundtrip_result foreign G g e T d d' HG He Hcase)
    as (data & e' & Henc & Hdec & He').
  assert (Hsafe : gobSafeErrorT ∈ registeredErrorTypes) by (left; reflexivity).
  assert (Hagain : ∃ data',
            run G (GobEncode foreign encodableTypes0 (gobError.mk (Some e')))
                registry0
            = Returned ((data', None), registry0)
            ∧ run G (GobDecode foreign g data') registry0
              = Returned ((gobError.mk (Some e'), None), registry0)).
  { destruct He' as [(-> & HT & Hd)|[->| ->]].
    - destruct (carried_again registry0) as (_ & Hdata & _).
      exact (registered_roundtrip_general foreign G HG g (VPtr (VData T d'))
               T d' d' HT eq_refl (Hdata d d' Hd)).
    - exact (registered_roundtrip_general foreign G HG g
               (VPtr (gobSafeError (Error_method foreign T d)))
               gobSafeErrorT (DString (Error_method foreign T d))
               (DString (Error_method foreign T d)) Hsafe eq_refl eq_refl).
    - destruct (unregistered_roundtrip_general foreign G HG g
                  (errors_New (Error_method foreign T d)) errorStringT
                  (DStruct [("s", Error_method foreign T d)]) eq_refl
                  errorString_unregistered) as (data' & Henc' & Hdec').
      rewrite Error_method_errorString in Hdec'.
      exists data'. split; [exact Henc'|exact Hdec']. }
  destruct Hagain as (data' & Henc' & Hdec').
  exists data, data', e'. auto.
Qed.

Lemma roundtrip_stabilizes_witness :
  ∃ (data data' : list byte) (e' : Value),
    run RefGob.serializer
        (GobEncode sampleForeign encodableTypes0
           (gobError.mk
              (Some (urlError (VData url_EscapeError (DString "%zz"))))))
        registry0
    = Returned ((data, None), registry0)
    ∧ run RefGob.serializer (GobDecode sampleForeign (gobError.mk None) data)
          registry0
      = Returned ((gobError.mk (Some e'), None), registry0)
    ∧ run RefGob.serializer
          (GobEncode sampleForeign encodableTypes0 (gobError.mk (Some e')))
          registry0
      = Returned ((data', None), registry0)
    ∧ run RefGob.serializer (GobDecode sampleForeign (gobError.mk None) data')
          registry0
      = Returned ((gobError.mk (Some e'), None), registry0).
Proof.
  apply (roundtrip_stabilizes sampleForeign RefGob.serializer
           (gobError.mk None)
           (urlError (VData url_EscapeError (DString "%zz"))) url_Error
           (DNested [("Op", "Get"); ("URL", "http://example.com/")]
              (IHolds "Err" (VData url_EscapeError (DString "%zz")) INone))
           (DNested [("Op", "Get"); ("URL", "http://example.com/")]
              (IHolds "Err" (VPtr (VData url_EscapeError (DString "%zz")))
                      INone))
           RefGob_transmits eq_refl).
  left. split; [unfold registeredErrorTypes; do 9 right; left|].
  exact carried_urlError_escape.
Defined.

(* ===================================================================== *)
(** ** Reconstruction on any query                                        *)
(* ===================================================================== *)

(** [RequestResponse] in one piece: the panic of the URL, or the result
    with every field written out. *)
Lemma RequestResponse_cases (url_Parse : string → option url.URL * error)
    (go13 : bool) (gReq : option gobRequest.t) (gResp : option gobResponse.t)
    (gErr : gobError.t) :
  RequestResponse url_Parse go13 (gobQuery.mk gReq gResp gErr)
  = let response :=
      match gResp with
      | Some p =>
          (Some (http.Response.set_TLS
                   (if go13 then gobResponse.TLS p else None) (liveResponse p)),
           gobResponse.Body p, gobError.Error (gobResponse.Error p))
      | None => (None, [], None)
      end in
    match gReq with
    | Some r =>
        match url_Parse (gobRequest.URL r) with
        | (_, Some err) => Panic (DvrFailure err)
        | (u, None) =>
            Ret (RequestResponse.mk
                   (Some (http.Request.set_TLS
                            (if go13 then gobRequest.TLS r else None)
                            (liveRequest r u)))
                   (gobRequest.Body r) (gobError.Error (gobRequest.Error r))
                   response.1.1 response.1.2 response.2
                   (gobError.Error gErr))
        end
    | None =>
        Ret (RequestResponse.mk None [] None
               response.1.1 response.1.2 response.2 (gobError.Error gErr))
    end.
Proof.
  unfold RequestResponse, requestResponseVS. cbn [gobQuery.Request].
  destruct gReq as [r|].
  - destruct (url_Parse (gobRequest.URL r)) as [u [err|]]; [reflexivity|].
    destruct gResp, go13; reflexivity.
  - destruct gResp, go13; reflexivity.
Qed.

(** X11.  [RequestResponse] returns exactly when the request snapshot
    is absent or [url.Parse] reports no error on its URL; otherwise it
    panics with the failure of [panicIfError].  It has no other outcome
    and never calls the serializer. *)
Theorem RequestResponse_returns_iff (url_Parse : string → option url.URL * error)
    (go13 : bool) (g : gobQuery.t) :
  ((∃ rr, RequestResponse url_Parse go13 g = Ret rr)
   ↔ ∀ r, gobQuery.Request g = Some r →
          (url_Parse (gobRequest.URL r)).2 = None)
  ∧ ((∃ rr, RequestResponse url_Parse go13 g = Ret rr)
     ∨ ∃ r err, gobQuery.Request g = Some r
                ∧ (url_Parse (gobRequest.URL r)).2 = Some err
                ∧ RequestResponse url_Parse go13 g = Panic (DvrFailure err)).
Proof.
  destruct g as [gReq gResp gErr]. rewrite RequestResponse_cases.
  cbn [gobQuery.Request]. destruct gReq as [r|].
  - destruct (url_Parse (gobRequest.URL r)) as [u [err|]] eqn:Hparse.
    + split.
      * split; [intros [rr Hrr]; discriminate|].
        intros H. specialize (H r eq_refl). rewrite Hparse in H. discriminate.
      * right. exists r, err. rewrite Hparse. auto.
    + split.
      * split; [|eauto]. intros _ r' [= <-]. rewrite Hparse. reflexivity.
      * left. eauto.
  - split; [|left; eauto]. split; [|eauto]. intros _ r' Hr'. discriminate.
Qed.

(** X12.  Whatever [RequestResponse] returns carries the stored values
    unchanged: the round-trip error of the query, the body bytes and
    body-read error of each snapshot present (empty and nil for one that
    is absent), and a request or response exactly where the query has a
    snapshot. *)
Theorem RequestResponse_carries (url_Parse : string → option url.URL * error)
    (go13 : bool) (g : gobQuery.t) (rr : RequestResponse.t) :
  RequestResponse url_Parse go13 g = Ret rr →
  RequestResponse.Error rr = gobError.Error (gobQuery.Error g)
  ∧ RequestResponse.RequestBody rr
    = from_option gobRequest.Body [] (gobQuery.Request g)
  ∧ RequestResponse.RequestBodyError rr
    = from_option (λ r, gobError.Error (gobRequest.Error r)) None
                  (gobQuery.Request g)
  ∧ RequestResponse.ResponseBody rr
    = from_option gobResponse.Body [] (gobQuery.Response g)
  ∧ RequestResponse.ResponseBodyError rr
    = from_option (λ r, gobError.Error (gobResponse.Error r)) None
                  (gobQuery.Response g)
  ∧ (RequestResponse.Request rr = None ↔ gobQuery.Request g = None)
  ∧ (RequestResponse.Response rr = None ↔ gobQuery.Response g = None).
Proof.
  destruct g as [gReq gResp gErr]. rewrite RequestResponse_cases.
  cbn [gobQuery.Request gobQuery.Response gobQuery.Error].
  destruct gReq as [r|].
  - destruct (url_Parse (gobRequest.URL r)) as [u [err|]]; [discriminate|].
    intros [= <-]. destruct gResp; cbn; split_and!; try reflexivity;
      split; discriminate || reflexivity.
  - intros [= <-]. destruct gResp; cbn; split_and!; try reflexivity;
      split; discriminate || reflexivity.
Qed.

Lemma RequestResponse_carries_witness :
  let g := gobQuery.mk None None (gobError.mk (Some (gobSafeError "refused"))) in
  let rr := RequestResponse.mk None [] None None [] None
                               (Some (gobSafeError "refused")) in
  RequestResponse.Error rr = gobError.Error (gobQuery.Error g)
  ∧ RequestResponse.RequestBody rr
    = from_option gobRequest.Body [] (gobQuery.Request g)
  ∧ RequestResponse.RequestBodyError rr
    = from_option (λ r, gobError.Error (gobRequest.Error r)) None
                  (gobQuery.Request g)
  ∧ RequestResponse.ResponseBody rr
    = from_option gobResponse.Body [] (gobQuery.Response g)
  ∧ RequestResponse.ResponseBodyError rr
    = from_option (λ r, gobError.Error (gobResponse.Error r)) None
                  (gobQuery.Response g)
  ∧ (RequestResponse.Request rr = None ↔ gobQuery.Request g = None)
  ∧ (RequestResponse.Response rr = None ↔ gobQuery.Response g = None).
Proof.
  intros g rr.
  apply (RequestResponse_carries SampleURL.Parse true g rr). reflexivity.
Defined.

(** X13.  The TLS state crosses only under go1.3.  Whatever TLS state
    the snapshots hold, the request and the response that
    [RequestResponse] rebuilds have it when the build is go1.3 and have
    none otherwise; and [newGobRequest] and [newGobResponse] store the
    TLS state of the live value under go1.3 and none otherwise. *)
Theorem TLS_only_under_go13 (URL_String : url.URL → string)
    (url_Parse : string → option url.URL * error) (go13 : bool) :
  (∀ (g : gobQuery.t) (rr : RequestResponse.t),
     RequestResponse url_Parse go13 g = Ret rr →
     (http.Request.TLS <$> RequestResponse.Request rr)
     = ((λ r, if go13 then gobRequest.TLS r else None) <$> gobQuery.Request g)
     ∧ (http.Response.TLS <$> RequestResponse.Response rr)
       = ((λ r, if go13 then gobResponse.TLS r else None)
            <$> gobQuery.Response g))
  ∧ (∀ (req : http.Request.t) (r : gobRequest.t),
       newGobRequest URL_String go13 (Some req) = Ret (Some r) →
       gobRequest.TLS r = if go13 then http.Request.TLS req else None)
  ∧ (∀ resp : http.Response.t,
       (gobResponse.TLS <$> newGobResponse go13 (Some resp))
       = Some (if go13 then http.Response.TLS resp else None)).
Proof.
  split_and!.
  - intros [gReq gResp gErr] rr. rewrite RequestResponse_cases.
    cbn [gobQuery.Request gobQuery.Response].
    destruct gReq as [r|].
    + destruct (url_Parse (gobRequest.URL r)) as [u [err|]]; [discriminate|].
      intros [= <-]. destruct gResp; split; reflexivity.
    + intros [= <-]. destruct gResp; split; reflexivity.
  - intros req r. unfold newGobRequest, newGobRequestVS.
    destruct (http.Request.URL req); cbn [URL_String_call bind];
      [|discriminate].
    intros [= <-]. destruct go13; reflexivity.
  - intros resp. unfold newGobResponse, newGobResponseVS.
    destruct go13; reflexivity.
Qed.

(** X14.  A response round-trips without a failure path.
    [newGobResponse] never panics; the snapshot it builds has empty body
    bytes and no body-read error; and with any body bytes and body-read
    error then stored in it, in a query without request snapshot,
    [RequestResponse] returns a response with the status, status code,
    protocol and version, header, content length, transfer encoding,
    close flag and trailer of the original, with its TLS state under
    go1.3 and none otherwise, with no body, next to the stored body
    bytes and body-read error. *)
Theorem response_snapshot_roundtrip (url_Parse : string → option url.URL * error)
    (go13 : bool) (resp : http.Response.t) :
  ∃ r : gobResponse.t,
    newGobResponse go13 (Some resp) = Some r
    ∧ gobResponse.Body r = []
    ∧ gobError.Error (gobResponse.Error r) = None
    ∧ ∀ (body : list byte) (bodyErr : error) (gErr : gobError.t),
        RequestResponse url_Parse go13
          (gobQuery.mk None (Some (gobResponse.set_Body body bodyErr r)) gErr)
        = Ret (RequestResponse.mk None [] None
                 (Some (http.Response.mk
                          (http.Response.Status resp)
                          (http.Response.StatusCode resp)
                          (http.Response.Proto resp)
                          (http.Response.ProtoMajor resp)
                          (http.Response.ProtoMinor resp)
                          (http.Response.Header resp)
                          None
                          (http.Response.ContentLength resp)
                          (http.Response.TransferEncoding resp)
                          (http.Response.Close resp)
                          (http.Response.Trailer resp)
                          (if go13 then http.Response.TLS resp else None)))
                 body bodyErr (gobError.Error gErr)).
Proof.
  eexists. split; [reflexivity|].
  unfold newGobResponseVS.
  split_and!; [destruct go13; reflexivity..|].
  intros body bodyErr gErr. rewrite RequestResponse_cases.
  destruct go13; reflexivity.
Qed.

(* ===================================================================== *)
(** ** What [init] leaves                                                 *)
(* ===================================================================== *)

(** X15.  [init] returns, with any serializer, and does not panic in
    [gob.Register] although [net.DNSError] is registered twice.  It
    leaves exactly the identifiers of the eleven registered error types
    in [encodableTypes], each with gob sending the type under the name of
    its pointer type; fourteen names are known to gob (the three other
    types included); and [errors.errorString] is not encodable. *)
Theorem init_registers :
  (∀ G : Serializer,
     run G init Gob.empty = Returned (encodableTypes0, registry0))
  ∧ dom encodableTypes0
    = list_to_set ((λ T, typeId (Defined T)) <$> registeredErrorTypes)
  ∧ Forall (λ T, encodableTypes0 !! typeId (Defined T) = Some true
                 ∧ Gob.nameToConcreteType registry0
                     !! Gob.registeredName (PtrTo (Defined T))
                   = Some (PtrTo (Defined T))
                 ∧ Gob.concreteTypeToName registry0 !! Defined T
                   = Some (Gob.registeredName (PtrTo (Defined T))))
           registeredErrorTypes
  ∧ size (Gob.nameToConcreteType registry0) = 14
  ∧ size (Gob.concreteTypeToName registry0) = 14
  ∧ encodableTypes0 !! "errors.errorString" = None.
Proof.
  split_and!.
  - intros G.
    rewrite (run_registersOnly G nullSerializer init Gob.empty
               init_registersOnly).
    fold initOutcome. rewrite initOutcome_returned.
    unfold encodableTypes0, registry0. destruct afterInit. reflexivity.
  - assert (H : bool_decide
                   (dom encodableTypes0
                    = list_to_set
                        ((λ T, typeId (Defined T)) <$> registeredErrorTypes))
                 = true) by (vm_compute; reflexivity).
    exact (bool_decide_eq_true_1 _ H).
  - unfold registeredErrorTypes.
    repeat (apply List.Forall_cons; [split_and!; vm_compute; reflexivity|]).
    apply List.Forall_nil.
  - vm_compute. reflexivity.
  - vm_compute. reflexivity.
  - vm_compute. reflexivity.
Qed.
